(** * Security response automation: the remove-non-org-members rule and the
      IAM revoker entry point

    A shallow embedding of [exec.go]: the package [removenonorgmembers]
    ([ReadFinding], [Execute], [filterNonOrgMembers], [notWhitelisted],
    [notFromOrg]) and the Cloud Function entry point
    [RevokeExternalGrantsFolders] of package [exec].

    Go strings are byte sequences; they are modelled by [string] (a list of
    8-bit [ascii]).  Slices are lists, a nil slice being the empty list.
    Pointers to structs ([*Required], [*cloudresourcemanager.Binding], ...)
    are modelled by the struct they point to: the embedding covers the calls
    in which they are not nil. *)

From Stdlib Require Import String Ascii List Bool ZArith Lia Arith.
From Stdlib Require Import Permutation.
Import ListNotations.

Local Open Scope string_scope.
Local Open Scope list_scope.

(** ** Go's [strings] package *)

Module strings.

(** [strings.HasPrefix(s, prefix)]:
    [len(s) >= len(prefix) && s[:len(prefix)] == prefix]. *)
Definition HasPrefix (s prefix : string) : bool :=
  (String.length prefix <=? String.length s)%nat
  && String.eqb (substring 0 (String.length prefix) s) prefix.

(** [strings.Index(s, substr)]: the index of the first instance of [substr]
    in [s], or [-1] when there is none. *)
Fixpoint Index (s substr : string) : Z :=
  if HasPrefix s substr then 0%Z
  else match s with
       | EmptyString => (-1)%Z
       | String _ s' =>
           let i := Index s' substr in
           if (i <? 0)%Z then (-1)%Z else (i + 1)%Z
       end.

(** [strings.Contains(s, substr)]: [Index(s, substr) >= 0]. *)
Definition Contains (s substr : string) : bool :=
  (0 <=? Index s substr)%Z.

(** [strings.Split(s, sep)] for a one-byte separator: the fields between
    the separators, always at least one field. *)
Fixpoint SplitByte (s : string) (sep : ascii) : list string :=
  match s with
  | EmptyString => [EmptyString]
  | String c s' =>
      if Ascii.eqb c sep then EmptyString :: SplitByte s' sep
      else match SplitByte s' sep with
           | [] => [String c EmptyString]
           | f :: fs => String c f :: fs
           end
  end.

End strings.

(** ** Data of [google.golang.org/api/cloudresourcemanager/v1]

    Only the fields this package reads are kept. *)

Record Binding : Type := mkBinding {
  Role : string;
  Members : list string
}.

Record Policy : Type := mkPolicy {
  Bindings : list Binding
}.

Record Organization : Type := mkOrganization {
  Name : string;
  DisplayName : string
}.

(** ** The Membership Diff Engine *)

Definition notFromOrg (member prefix content : string) : bool :=
  strings.HasPrefix member prefix && negb (strings.Contains member content).

(** The loop over [domains] returns [false] at the first domain contained
    in [member], [true] when the loop ends. *)
Fixpoint notWhitelisted (member : string) (domains : list string) : bool :=
  match domains with
  | [] => true
  | d :: ds =>
      if strings.Contains member d then false else notWhitelisted member ds
  end.

(** The body of the inner loop: one member of one binding. *)
Definition visitMember (organizationDisplayName : string)
    (allowedDomains : list string) (nonOrgMembers : list string) (m : string)
    : list string :=
  if notFromOrg m "user:" organizationDisplayName
     && notWhitelisted m allowedDomains
  then nonOrgMembers ++ [m]
  else nonOrgMembers.

(** The body of the outer loop: the inner loop over [b.Members]. *)
Definition visitBinding (organizationDisplayName : string)
    (allowedDomains : list string) (nonOrgMembers : list string) (b : Binding)
    : list string :=
  fold_left (visitMember organizationDisplayName allowedDomains)
            (Members b) nonOrgMembers.

(** [nonOrgMembers] is the named result, nil at entry; both loops append to
    it. *)
Definition filterNonOrgMembers (organizationDisplayName : string)
    (bindings : list Binding) (allowedDomains : list string) : list string :=
  fold_left (visitBinding organizationDisplayName allowedDomains) bindings [].

(** ** Errors

    A Go [error] value is modelled by its construction: an error carrying a
    text ([errors.New], [fmt.Errorf], or an error of a collaborator), or an
    error of [github.com/pkg/errors] wrapping a cause with a message.  The
    stack recorded by [errors.Wrap] is not modelled.  A nil error is [None]
    of [option error]. *)

Inductive error : Type :=
| errorString (s : string)
| withMessage (cause : error) (msg : string).

(** The [Error()] method. *)
Fixpoint Error (e : error) : string :=
  match e with
  | errorString s => s
  | withMessage cause msg => (msg ++ ": " ++ Error cause)%string
  end.

(** [errors.Wrap(err, message)] for a non-nil [err]. *)
Definition Wrap (err : error) (message : string) : error :=
  withMessage err message.

(** [errors.Cause(err)]. *)
Fixpoint Cause (e : error) : error :=
  match e with
  | errorString _ => e
  | withMessage cause _ => Cause cause
  end.

(** A Go pair [(value, err)] of which the caller reads [value] only when
    [err] is nil. *)
Inductive result (A : Type) : Type :=
| Ok (a : A)
| Err (e : error).
Arguments Ok {A} a.
Arguments Err {A} e.

(** [fmt]'s [%s] of a [[]string]: the elements between brackets, separated
    by spaces. *)
Definition fmt_s (l : list string) : string :=
  ("[" ++ String.concat " " l ++ "]")%string.

(** ** Programs that call collaborators

    A function that calls collaborators is a tree: it returns, or it makes a
    call and continues with the answer.  [call] is the type of the calls and
    [resp c] the type of the answer to the call [c]. *)

Inductive Prog (call : Type) (resp : call -> Type) (A : Type) : Type :=
| Ret (a : A)
| Do (c : call) (k : resp c -> Prog call resp A).
Arguments Ret {call resp A} a.
Arguments Do {call resp A} c k.

Fixpoint bind {call resp A B} (p : Prog call resp A)
    (f : A -> Prog call resp B) : Prog call resp B :=
  match p with
  | Ret a => f a
  | Do c k => Do c (fun r => bind (k r) f)
  end.

Definition perform {call resp} (c : call) : Prog call resp (resp c) :=
  Do c (fun r => Ret r).

Declare Scope prog_scope.
Delimit Scope prog_scope with prog.
Notation "x <- p ;; q" := (bind p (fun x => q))
  (at level 61, p at next level, right associativity) : prog_scope.
Notation "p ;;; q" := (bind p (fun _ => q))
  (at level 61, right associativity) : prog_scope.

(** A collaborator implementation over a world [W] answers each call and
    moves the world. *)
Definition handler (call : Type) (resp : call -> Type) (W : Type) : Type :=
  forall c : call, W -> resp c * W.

(** Running a program against an implementation: the calls made, in order,
    the value returned and the final world. *)
Fixpoint run {call resp A W} (h : handler call resp W)
    (p : Prog call resp A) (w : W) : list call * A * W :=
  match p with
  | Ret a => ([], a, w)
  | Do c k =>
      let (r, w1) := h c w in
      let '(tr, a, w2) := run h (k r) w1 in
      (c :: tr, a, w2)
  end.

Definition calls_of {call A W} (o : list call * A * W) : list call :=
  fst (fst o).
Definition returned {call A W} (o : list call * A * W) : A := snd (fst o).

(** [context.Context]: what the core reads of it is the deadline it passes
    on. *)
Record Context : Type := mkContext {
  Deadline : option Z
}.

(** ** Package [removenonorgmembers] *)

(** Required contains the required values needed for this function. *)
Record Required : Type := mkRequired {
  OrganizationName : string
}.

(** The finding message [pb.IamScanner]; its getters answer the zero value
    on a nil receiver. *)
Record Finding : Type := mkFinding {
  Category : string;
  Parent : string
}.

Record IamScanner : Type := mkIamScanner {
  Finding_ : option Finding
}.

Definition GetFinding (f : IamScanner) : option Finding := Finding_ f.
Definition GetCategory (f : option Finding) : string :=
  match f with Some x => Category x | None => "" end.
Definition GetParent (f : option Finding) : string :=
  match f with Some x => Parent x | None => "" end.

(** What [ReadFinding] uses of the packages [encoding/json], [entities] and
    [providers/sha]: the decoder into [pb.IamScanner], the two error values
    and the extraction of the organization name from a resource parent. *)
Class FindingEnv : Type := {
  json_Unmarshal : string -> result IamScanner;
  sha_OrganizationName : string -> string;
  ErrUnmarshal : error;
  ErrValueNotFound : error
}.

(** ReadFinding will attempt to deserialize all supported findings for this
    function. *)
Definition ReadFinding `{FindingEnv} (b : string) : result Required :=
  let r := mkRequired "" in
  match json_Unmarshal b with
  | Err err => Err (Wrap ErrUnmarshal (Error err))
  | Ok finding =>
      let r :=
        if String.eqb (GetCategory (GetFinding finding)) "NON_ORG_IAM_MEMBER"
        then mkRequired (sha_OrganizationName (GetParent (GetFinding finding)))
        else r in
      if String.eqb (OrganizationName r) "" then Err ErrValueNotFound
      else Ok r
  end.

(** The configuration of the rule, read from [settings.json]. *)
Record RemoveNonOrgMembersConf : Type := mkRemoveNonOrgMembersConf {
  Enabled : bool;
  AllowDomains : list string
}.

Record ConfigurationT : Type := mkConfiguration {
  RemoveNonOrgMembers : RemoveNonOrgMembersConf
}.

(** [entities.Entity]; its [Resource] is the collaborator the calls below
    go to. *)
Record Entity : Type := mkEntity {
  Configuration : ConfigurationT
}.

(** The calls [Execute] makes: the three methods of [ent.Resource] and the
    two uses of the standard logger. *)
Inductive ExecuteCall : Type :=
| Resource_Organization (ctx : Context) (name : string)
| Resource_PolicyOrganization (ctx : Context) (name : string)
| Resource_RemoveMembersOrganization (ctx : Context) (name : string)
    (remove : list string) (existing : Policy)
| log_Printf (line : string)
| log_Println (line : string).

Definition ExecuteResp (c : ExecuteCall) : Type :=
  match c with
  | Resource_Organization _ _ => result Organization
  | Resource_PolicyOrganization _ _ => result Policy
  | Resource_RemoveMembersOrganization _ _ _ _ => result Policy
  | log_Printf _ => unit
  | log_Println _ => unit
  end.

(** The calls that reach a collaborator (the resource manager). *)
Definition isCollaboratorCall (c : ExecuteCall) : bool :=
  match c with
  | Resource_Organization _ _
  | Resource_PolicyOrganization _ _
  | Resource_RemoveMembersOrganization _ _ _ _ => true
  | log_Printf _ | log_Println _ => false
  end.

Definition collaboratorCalls (tr : list ExecuteCall) : list ExecuteCall :=
  filter isCollaboratorCall tr.

Local Open Scope prog_scope.

(** A call of [Execute]. *)
Definition invoke (c : ExecuteCall)
    : Prog ExecuteCall ExecuteResp (ExecuteResp c) :=
  perform c.

(** Execute removes non-organization members. *)
Definition Execute (ctx : Context) (required : Required) (ent : Entity)
    : Prog ExecuteCall ExecuteResp (option error) :=
  let conf := Configuration ent in
  if Enabled (RemoveNonOrgMembers conf) then
    let allowedDomains := AllowDomains (RemoveNonOrgMembers conf) in
    o <- invoke (Resource_Organization ctx (OrganizationName required)) ;;
    match o with
    | Err err =>
        Ret (Some (Wrap err ("failed to get organization: "
                             ++ OrganizationName required)))
    | Ok organization =>
        p <- invoke (Resource_PolicyOrganization ctx (Name organization)) ;;
        match p with
        | Err err =>
            Ret (Some (Wrap err "failed to retrieve organization policies"))
        | Ok policy =>
            let membersToRemove :=
              filterNonOrgMembers (DisplayName organization)
                                  (Bindings policy) allowedDomains in
            u <- invoke (Resource_RemoveMembersOrganization ctx
                            (Name organization) membersToRemove policy) ;;
            match u with
            | Err err =>
                Ret (Some (Wrap err "failed to remove organization policies"))
            | Ok _ =>
                invoke (log_Printf ("removed members: "
                                     ++ fmt_s membersToRemove)) ;;;
                Ret None
            end
        end
    end
  else
    invoke (log_Println
      "remove non-org members execution disabled: check settings.json.") ;;;
    Ret None.

(** Modelled from the spec: the update operation of the Resource
    collaborator ([RemoveMembersOrganization] of package [entities]) is not
    part of this file.  The spec has it remove the matching members from
    every binding, preserving the role, and retain a binding left with zero
    members. *)
Definition removeMembersFrom (remove : list string) (b : Binding) : Binding :=
  mkBinding (Role b)
    (filter (fun m => negb (existsb (String.eqb m) remove)) (Members b)).

Definition removeMembers (remove : list string) (bindings : list Binding)
    : list Binding :=
  map (removeMembersFrom remove) bindings.

(** ** Package [exec] *)

Definition authFile : string := "credentials/auth.json".

(** [pubsub.Message], passed through to package [cloudfunctions]. *)
Record Message : Type := mkMessage {
  ID : string;
  Data : string
}.

(** The process environment and [os.Getenv]: the value of the first entry
    for the key, the empty string when there is none. *)
Definition Environ : Type := list (string * string).

Fixpoint Getenv (env : Environ) (key : string) : string :=
  match env with
  | [] => ""
  | (k, v) :: rest => if String.eqb k key then v else Getenv rest key
  end.

(** Handles on the clients and entities of packages [clients] and
    [entities]; the entry point only passes them on. *)
Record LoggerClient : Type := mkLoggerClient { LoggerClientId : nat }.
Record Logger : Type := mkLogger { LoggerId : nat }.
Record CloudResourceManager : Type := mkCloudResourceManager { CrmId : nat }.
Record Storage : Type := mkStorage { StorageId : nat }.
Record Resource : Type := mkResource { ResourceId : nat }.

(** The calls of the entry point into the packages [clients], [entities]
    and [cloudfunctions]. *)
Inductive EntryCall : Type :=
| clients_NewLogger (ctx : Context) (file : string)
| entities_NewLogger (lg : LoggerClient)
| Logger_Close (l : Logger)
| Logger_Info (l : Logger) (message : string)
| clients_NewCloudResourceManager (ctx : Context) (file : string)
| clients_NewStorage (ctx : Context) (file : string)
| entities_NewResource (crm : CloudResourceManager) (stg : Storage)
| cloudfunctions_RevokeExternalGrantsFolders (ctx : Context) (m : Message)
    (r : Resource) (ids : list string) (d : list string) (l : Logger).

Definition EntryResp (c : EntryCall) : Type :=
  match c with
  | clients_NewLogger _ _ => result LoggerClient
  | entities_NewLogger _ => Logger
  | Logger_Close _ => unit
  | Logger_Info _ _ => unit
  | clients_NewCloudResourceManager _ _ => result CloudResourceManager
  | clients_NewStorage _ _ => result Storage
  | entities_NewResource _ _ => Resource
  | cloudfunctions_RevokeExternalGrantsFolders _ _ _ _ _ _ => option error
  end.

(** The calls that create or use the resource-manager and storage clients,
    or hand over to the policy logic of [cloudfunctions]. *)
Definition isResourceCall (c : EntryCall) : bool :=
  match c with
  | clients_NewCloudResourceManager _ _
  | clients_NewStorage _ _
  | entities_NewResource _ _
  | cloudfunctions_RevokeExternalGrantsFolders _ _ _ _ _ _ => true
  | _ => false
  end.

(** [strconv.Quote], which [fmt] applies for the verb [%q]. *)
Class FmtEnv : Type := {
  strconv_Quote : string -> string
}.

(** [fmt.Errorf(prefix + "%q", err)]. *)
Definition Errorf_q `{FmtEnv} (prefix : string) (err : error) : error :=
  errorString (prefix ++ strconv_Quote (Error err)).

(** [defer d] ahead of [body]: [d] runs when [body] returns, and the value
    [body] returns is the function's. *)
Definition deferring {call resp A} (d : Prog call resp unit)
    (body : Prog call resp A) : Prog call resp A :=
  x <- body ;; d ;;; Ret x.

(** A call of the entry point. *)
Definition entry (c : EntryCall) : Prog EntryCall EntryResp (EntryResp c) :=
  perform c.

(** RevokeExternalGrantsFolders is the entry point for IAM revoker Cloud
    Function. *)
Definition RevokeExternalGrantsFolders `{FmtEnv} (env : Environ)
    (ctx : Context) (m : Message) : Prog EntryCall EntryResp (option error) :=
  lg <- entry (clients_NewLogger ctx authFile) ;;
  match lg with
  | Err err => Ret (Some (Errorf_q "failed to initialize logger client: " err))
  | Ok lg =>
    l <- entry (entities_NewLogger lg) ;;
    deferring (entry (Logger_Close l)) (
      entry (Logger_Info l "Initializing external members IAM removal") ;;;
      if String.eqb (Getenv env "folder_ids") "" then
        Ret (Some (errorString "folder_ids environment variable not found"))
      else if String.eqb (Getenv env "disallowed") "" then
        Ret (Some (errorString "disallowed environment variable not found"))
      else
        crm <- entry (clients_NewCloudResourceManager ctx authFile) ;;
        match crm with
        | Err err =>
            Ret (Some (Errorf_q
              "failed to initialize cloud resource manager client: " err))
        | Ok crm =>
          stg <- entry (clients_NewStorage ctx authFile) ;;
          match stg with
          | Err err =>
              Ret (Some (Errorf_q "failed to initialize storage client: " err))
          | Ok stg =>
            r <- entry (entities_NewResource crm stg) ;;
            let ids := strings.SplitByte (Getenv env "folder_ids") "," in
            let d := strings.SplitByte (Getenv env "disallowed") "," in
            entry (cloudfunctions_RevokeExternalGrantsFolders ctx m r ids d l)
          end
        end)
  end.

(** *** The entry points [SnapshotDisk] and [CloseBucket] *)

Record Compute : Type := mkCompute { ComputeId : nat }.
Record Host : Type := mkHost { HostId : nat }.

(** [cloudfunctions.Configuration], of which [CloseBucket] sets the folder
    identifiers. *)
Record CloudfunctionsConfiguration : Type := mkCloudfunctionsConfiguration {
  FoldersIDs : list string
}.

(** The calls of these two entry points: those of [EntryCall], the compute
    client and host, and the two functions of [cloudfunctions] they hand
    over to. *)
Inductive FunctionCall : Type :=
| shared (c : EntryCall)
| clients_NewCompute (ctx : Context) (file : string)
| entities_NewHost (cs : Compute)
| cloudfunctions_CreateSnapshot (ctx : Context) (m : Message) (r : Resource)
    (h : Host) (l : Logger)
| cloudfunctions_CloseBucket (ctx : Context) (m : Message) (r : Resource)
    (l : Logger) (conf : CloudfunctionsConfiguration).

Definition FunctionResp (c : FunctionCall) : Type :=
  match c with
  | shared c => EntryResp c
  | clients_NewCompute _ _ => result Compute
  | entities_NewHost _ => Host
  | cloudfunctions_CreateSnapshot _ _ _ _ _ => option error
  | cloudfunctions_CloseBucket _ _ _ _ _ => option error
  end.

Definition function (c : FunctionCall)
    : Prog FunctionCall FunctionResp (FunctionResp c) :=
  perform c.

(** SnapshotDisk is the entry point for the auto creation of GCE snapshots
    Cloud Function. *)
Definition SnapshotDisk `{FmtEnv} (ctx : Context) (m : Message)
    : Prog FunctionCall FunctionResp (option error) :=
  lg <- function (shared (clients_NewLogger ctx authFile)) ;;
  match lg with
  | Err err => Ret (Some (Errorf_q "failed to initialize logger client: " err))
  | Ok lg =>
    l <- function (shared (entities_NewLogger lg)) ;;
    deferring (function (shared (Logger_Close l))) (
      function (shared (Logger_Info l "Initializing snapshot generation")) ;;;
      crm <- function (shared (clients_NewCloudResourceManager ctx authFile)) ;;
      match crm with
      | Err err =>
          Ret (Some (Errorf_q
            "failed to initialize cloud resource manager client: " err))
      | Ok crm =>
        stg <- function (shared (clients_NewStorage ctx authFile)) ;;
        match stg with
        | Err err =>
            Ret (Some (Errorf_q "failed to initialize storage client: " err))
        | Ok stg =>
          r <- function (shared (entities_NewResource crm stg)) ;;
          cs <- function (clients_NewCompute ctx authFile) ;;
          match cs with
          | Err err =>
              Ret (Some (Errorf_q "failed to initialize compute client: " err))
          | Ok cs =>
            h <- function (entities_NewHost cs) ;;
            function (cloudfunctions_CreateSnapshot ctx m r h l)
          end
        end
      end)
  end.

(** CloseBucket will remove any public users from buckets found within the
    provided folders. *)
Definition CloseBucket `{FmtEnv} (env : Environ) (ctx : Context) (m : Message)
    : Prog FunctionCall FunctionResp (option error) :=
  lg <- function (shared (clients_NewLogger ctx authFile)) ;;
  match lg with
  | Err err => Ret (Some (Errorf_q "failed to initialize logger client: " err))
  | Ok lg =>
    l <- function (shared (entities_NewLogger lg)) ;;
    deferring (function (shared (Logger_Close l))) (
      function (shared
        (Logger_Info l "Initializing bucket public users removal")) ;;;
      if String.eqb (Getenv env "folder_ids") "" then
        Ret (Some (errorString "folder_ids environment variable not found"))
      else
        crm <- function (shared (clients_NewCloudResourceManager ctx authFile)) ;;
        match crm with
        | Err err =>
            Ret (Some (Errorf_q
              "failed to initialize cloud resource manager client: " err))
        | Ok crm =>
          stg <- function (shared (clients_NewStorage ctx authFile)) ;;
          match stg with
          | Err err =>
              Ret (Some (Errorf_q "failed to initialize storage client: " err))
          | Ok stg =>
            r <- function (shared (entities_NewResource crm stg)) ;;
            let conf := mkCloudfunctionsConfiguration
                          (strings.SplitByte (Getenv env "folder_ids") ",") in
            function (cloudfunctions_CloseBucket ctx m r l conf)
          end
        end)
  end.

Local Close Scope prog_scope.

(** ** Vocabulary of the statements *)

(** [p] is a prefix of [s]; [sub] occurs in [s] as a substring. *)
Definition is_prefix (p s : string) : Prop :=
  exists t, s = (p ++ t)%string.
Definition occurs_in (sub s : string) : Prop :=
  exists a b, s = (a ++ sub ++ b)%string.

(** The condition of the inner loop of [filterNonOrgMembers]. *)
Definition selected (organizationDisplayName : string)
    (allowedDomains : list string) (m : string) : bool :=
  notFromOrg m "user:" organizationDisplayName
  && notWhitelisted m allowedDomains.

(** [b'] is [b] with its members in another order. *)
Definition members_reordered (b b' : Binding) : Prop :=
  Role b = Role b' /\ Permutation (Members b) (Members b').

(** [bs'] is [bs] with the members of each binding, and then the bindings,
    in another order. *)
Definition reordered (bs bs' : list Binding) : Prop :=
  exists mid, Forall2 members_reordered bs mid /\ Permutation mid bs'.

(** All members of a policy's bindings, binding after binding. *)
Definition allMembers (bindings : list Binding) : list string :=
  flat_map Members bindings.

(** ** Stand-ins for the collaborators

    Implementations used to run the programs on concrete inputs. *)

(** A resource manager that answers the three calls with fixed answers and
    counts the calls it has answered. *)
Definition fakeResource (org : result Organization) (pol upd : result Policy)
    : handler ExecuteCall ExecuteResp nat :=
  fun c =>
    match c as c0 return nat -> ExecuteResp c0 * nat with
    | Resource_Organization _ _ => fun n => (org, S n)
    | Resource_PolicyOrganization _ _ => fun n => (pol, S n)
    | Resource_RemoveMembersOrganization _ _ _ _ => fun n => (upd, S n)
    | log_Printf _ => fun n => (tt, n)
    | log_Println _ => fun n => (tt, n)
    end.

(** Clients of the entry point: the logger client is [lg], every other
    client is created, and the policy logic of [cloudfunctions] succeeds. *)
Definition fakeClients (lg : result LoggerClient)
    : handler EntryCall EntryResp nat :=
  fun c =>
    match c as c0 return nat -> EntryResp c0 * nat with
    | clients_NewLogger _ _ => fun n => (lg, S n)
    | entities_NewLogger _ => fun n => (mkLogger n, S n)
    | Logger_Close _ => fun n => (tt, S n)
    | Logger_Info _ _ => fun n => (tt, S n)
    | clients_NewCloudResourceManager _ _ =>
        fun n => (Ok (mkCloudResourceManager n), S n)
    | clients_NewStorage _ _ => fun n => (Ok (mkStorage n), S n)
    | entities_NewResource _ _ => fun n => (mkResource n, S n)
    | cloudfunctions_RevokeExternalGrantsFolders _ _ _ _ _ _ =>
        fun n => (None, S n)
    end.

(** A quoting function that only adds the quotes. *)
Definition plainQuote : FmtEnv :=
  {| strconv_Quote := fun s => (String "034"%char s ++ String "034"%char EmptyString)%string |}.

(** A decoder that knows two payloads, and an extraction that keeps a
    parent of the form [organizations/...]. *)
Definition sampleFindingEnv : FindingEnv :=
  {| json_Unmarshal := fun b =>
       if String.eqb b "{}" then Ok (mkIamScanner None)
       else if String.eqb b "sample"
       then Ok (mkIamScanner (Some (mkFinding "NON_ORG_IAM_MEMBER"
                                      "organizations/1037840971520")))
       else Err (errorString "unexpected end of JSON input");
     sha_OrganizationName := fun parent =>
       if strings.HasPrefix parent "organizations/" then parent else "";
     ErrUnmarshal := errorString "failed to unmarshal";
     ErrValueNotFound := errorString "value not found" |}.

(** The calls that close a logger. *)
Definition isLoggerClose (c : EntryCall) : bool :=
  match c with
  | Logger_Close _ => true
  | _ => false
  end.

Definition isFunctionLoggerClose (c : FunctionCall) : bool :=
  match c with
  | shared c => isLoggerClose c
  | _ => false
  end.

(** The calls of [SnapshotDisk] and [CloseBucket] that create the clients of
    the cloud services and the entities made of them, or hand over to
    [cloudfunctions]: all but those of the logger. *)
Definition isServiceCall (c : FunctionCall) : bool :=
  match c with
  | shared c => isResourceCall c
  | _ => true
  end.

(** Clients of [SnapshotDisk] and [CloseBucket]: every client is created and
    the functions of [cloudfunctions] answer [res]. *)
Definition fakeFunctions (res : option error)
    : handler FunctionCall FunctionResp nat :=
  fun c =>
    match c as c0 return nat -> FunctionResp c0 * nat with
    | shared c => fakeClients (Ok (mkLoggerClient 0)) c
    | clients_NewCompute _ _ => fun n => (Ok (mkCompute n), S n)
    | entities_NewHost _ => fun n => (mkHost n, S n)
    | cloudfunctions_CreateSnapshot _ _ _ _ _ => fun n => (res, S n)
    | cloudfunctions_CloseBucket _ _ _ _ _ => fun n => (res, S n)
    end.

(** ** Proof automation for the entry points *)

(** One answer of the collaborator, case by case. *)
Ltac answer h :=
  match goal with
  | |- context [h ?c ?w] =>
      let r := fresh "r" in
      let w' := fresh "w" in
      let E := fresh "E" in
      destruct (h c w) as [r w'] eqn:E; simpl in r;
      match type of r with
      | result _ => destruct r as [?|?]
      | option _ => destruct r as [?|]
      | unit => destruct r
      | _ => idtac
      end; simpl
  end.

(** One test of a variable of the environment. *)
Ltac variable_test :=
  match goal with
  | |- context [String.eqb (Getenv ?env ?k) ?v] =>
      let E := fresh "V" in
      destruct (String.eqb (Getenv env k) v) eqn:E; simpl
  end.

(** All the paths of a run. *)
Ltac explore h := simpl; repeat first [variable_test | answer h].

(** A call that is not in a list of other calls. *)
Ltac not_among Hin :=
  simpl in Hin;
  repeat match type of Hin with
         | _ \/ _ => destruct Hin as [Hin|Hin]
         end;
  try discriminate Hin; try contradiction.

(** ** Facts about the string functions *)

Module strings_facts.
Import strings.


Lemma HasPrefix_nil s : HasPrefix s "" = true.
Proof. unfold HasPrefix. simpl. now destruct s. Qed.

Lemma HasPrefix_of_nil b p : HasPrefix "" (String b p) = false.
Proof. reflexivity. Qed.

Lemma HasPrefix_cons a s b p :
  HasPrefix (String a s) (String b p) = Ascii.eqb a b && HasPrefix s p.
Proof.
  unfold HasPrefix. simpl.
  destruct (Ascii.eqb a b); simpl.
  - reflexivity.
  - now rewrite andb_false_r.
Qed.

Lemma HasPrefix_spec s p : HasPrefix s p = true <-> is_prefix p s.
Proof.
  unfold is_prefix. revert s.
  induction p as [|b p IH]; intros s.
  - rewrite HasPrefix_nil. split; [intros _; now exists s | reflexivity].
  - destruct s as [|a s].
    + rewrite HasPrefix_of_nil. split; [discriminate | intros [t Ht]; discriminate].
    + rewrite HasPrefix_cons, andb_true_iff, Ascii.eqb_eq, IH.
      split.
      * intros [-> [t ->]]. now exists t.
      * intros [t Ht]. simpl in Ht. injection Ht as -> ->. split; [reflexivity | now exists t].
Qed.

Lemma Index_lower s sub : (-1 <= Index s sub)%Z.
Proof.
  induction s as [|c s IH]; simpl.
  - destruct (HasPrefix "" sub); lia.
  - destruct (HasPrefix (String c s) sub); [lia|].
    destruct (Z.ltb_spec (Index s sub) 0); lia.
Qed.

Lemma Index_spec s sub : (0 <= Index s sub)%Z <-> occurs_in sub s.
Proof.
  unfold occurs_in. induction s as [|c s IH]; simpl.
  - destruct (HasPrefix "" sub) eqn:E.
    + split; [intros _ | lia].
      apply HasPrefix_spec in E. destruct E as [t Ht]. now exists "", t.
    + split; [lia|]. intros (a & b & H).
      destruct a; simpl in H.
      * assert (HasPrefix "" sub = true) by (apply HasPrefix_spec; now exists b).
        congruence.
      * discriminate.
  - destruct (HasPrefix (String c s) sub) eqn:E.
    + split; [intros _ | lia].
      apply HasPrefix_spec in E. destruct E as [t Ht]. now exists "", t.
    + destruct (Z.ltb_spec (Index s sub) 0) as [Hlt|Hge].
      * split; [lia|]. intros (a & b & H).
        destruct a as [|c' a]; simpl in H.
        -- assert (HasPrefix (String c s) sub = true)
             by (apply HasPrefix_spec; now exists b).
           congruence.
        -- injection H as -> ->.
           assert (0 <= Index (a ++ sub ++ b)%string sub)%Z by (apply IH; now exists a, b).
           lia.
      * split; [intros _ | lia].
        destruct (proj1 IH Hge) as (a & b & ->).
        now exists (String c a), b.
Qed.

Lemma Contains_spec s sub : Contains s sub = true <-> occurs_in sub s.
Proof. unfold Contains. rewrite Z.leb_le. apply Index_spec. Qed.

Lemma Contains_false s sub : Contains s sub = false <-> ~ occurs_in sub s.
Proof.
  rewrite <- Contains_spec. destruct (Contains s sub); split; congruence.
Qed.

Lemma Contains_empty s : Contains s "" = true.
Proof. apply Contains_spec. now exists "", s. Qed.

End strings_facts.

(** ** The Membership Diff Engine: what the two loops compute *)

Section MembershipDiff.
Import strings_facts.

Variable org : string.
Variable allow : list string.

Lemma notWhitelisted_spec m domains :
  notWhitelisted m domains = true <->
  forall d, In d domains -> strings.Contains m d = false.
Proof.
  induction domains as [|d ds IH]; simpl.
  - split; [intros _ d [] | reflexivity].
  - destruct (strings.Contains m d) eqn:E.
    + split; [discriminate|]. intros H.
      specialize (H d (or_introl eq_refl)). congruence.
    + rewrite IH. split.
      * intros H d' [<-|Hd]; [assumption | now apply H].
      * intros H d' Hd. apply H. now right.
Qed.

Lemma selected_spec m :
  selected org allow m = true <->
  is_prefix "user:" m /\ ~ occurs_in org m /\
  (forall d, In d allow -> ~ occurs_in d m).
Proof.
  unfold selected, notFromOrg.
  rewrite !andb_true_iff, negb_true_iff, HasPrefix_spec, Contains_false,
    notWhitelisted_spec.
  split.
  - intros [[Hp Ho] Hw]. repeat split; try assumption.
    intros d Hd. apply Contains_false. now apply Hw.
  - intros (Hp & Ho & Hw). repeat split; try assumption.
    intros d Hd. apply Contains_false. now apply Hw.
Qed.

(** The inner loop appends the selected members of one binding, in order. *)
Lemma visitBinding_filter b acc :
  visitBinding org allow acc b = acc ++ filter (selected org allow) (Members b).
Proof.
  unfold visitBinding. generalize (Members b) as ms. intros ms. revert acc.
  induction ms as [|m ms IH]; intros acc; simpl.
  - now rewrite app_nil_r.
  - rewrite IH. unfold visitMember. fold (selected org allow m).
    destruct (selected org allow m); simpl.
    + now rewrite <- app_assoc.
    + reflexivity.
Qed.

(** The outer loop appends, binding after binding. *)
Lemma fold_visitBinding bs acc :
  fold_left (visitBinding org allow) bs acc =
  acc ++ flat_map (fun b => filter (selected org allow) (Members b)) bs.
Proof.
  revert acc. induction bs as [|b bs IH]; intros acc; simpl.
  - now rewrite app_nil_r.
  - rewrite IH, visitBinding_filter. now rewrite <- app_assoc.
Qed.

Lemma filterNonOrgMembers_flat_map bs :
  filterNonOrgMembers org bs allow =
  flat_map (fun b => filter (selected org allow) (Members b)) bs.
Proof. unfold filterNonOrgMembers. now rewrite fold_visitBinding. Qed.

Lemma filterNonOrgMembers_allMembers bs :
  filterNonOrgMembers org bs allow =
  filter (selected org allow) (allMembers bs).
Proof.
  rewrite filterNonOrgMembers_flat_map. unfold allMembers.
  induction bs as [|b bs IH]; simpl.
  - reflexivity.
  - now rewrite filter_app, IH.
Qed.

Lemma In_filterNonOrgMembers bs m :
  In m (filterNonOrgMembers org bs allow) <->
  (exists b, In b bs /\ In m (Members b)) /\ selected org allow m = true.
Proof.
  rewrite filterNonOrgMembers_allMembers, filter_In. unfold allMembers.
  now rewrite in_flat_map.
Qed.

End MembershipDiff.

Lemma Permutation_filter_compat {A} (f : A -> bool) (l l' : list A) :
  Permutation l l' -> Permutation (filter f l) (filter f l').
Proof.
  induction 1 as [|x l l' _ IH|x y l|l l' l'' _ IH1 _ IH2]; simpl.
  - constructor.
  - destruct (f x); [now constructor | assumption].
  - destruct (f x), (f y); try apply Permutation_refl. apply perm_swap.
  - now transitivity (filter f l').
Qed.

Lemma allMembers_members_reordered bs mid :
  Forall2 members_reordered bs mid ->
  Permutation (allMembers bs) (allMembers mid).
Proof.
  unfold allMembers.
  induction 1 as [|b b' bs mid [_ Hb] _ IH]; simpl.
  - constructor.
  - now apply Permutation_app.
Qed.

Lemma allMembers_reordered bs bs' :
  reordered bs bs' -> Permutation (allMembers bs) (allMembers bs').
Proof.
  intros (mid & Hmid & Hperm).
  transitivity (allMembers mid).
  - now apply allMembers_members_reordered.
  - unfold allMembers. now apply Permutation_flat_map.
Qed.

Lemma count_occ_filter_selected (f : string -> bool) (l : list string) m :
  count_occ string_dec (filter f l) m =
  if f m then count_occ string_dec l m else 0.
Proof.
  induction l as [|x l IH]; simpl.
  - now destruct (f m).
  - destruct (string_dec x m) as [->|Hne].
    + destruct (f m) eqn:E; simpl; [|exact IH].
      destruct (string_dec m m); [now rewrite IH | congruence].
    + destruct (f x); simpl; [|exact IH].
      destruct (string_dec x m); [congruence | exact IH].
Qed.

Lemma filter_none {A} (f : A -> bool) (l : list A) :
  (forall x, In x l -> f x = false) -> filter f l = [].
Proof.
  induction l as [|x l IH]; intros H; simpl.
  - reflexivity.
  - rewrite (H x (or_introl eq_refl)). apply IH. intros y Hy. apply H. now right.
Qed.

Lemma no_member_nil {A} (l : list A) : (forall x, ~ In x l) -> l = [].
Proof.
  destruct l as [|x l]; [reflexivity|]. intros H. destruct (H x). now left.
Qed.

(** C1: [filterNonOrgMembers] selects a member exactly when it is a member of
    one of the bindings, has the prefix [user:], does not contain the
    organization's display name and contains none of the allow-listed
    domains. *)
Theorem filterNonOrgMembers_selects_iff
    (org : string) (bindings : list Binding) (allow : list string)
    (m : string) :
  In m (filterNonOrgMembers org bindings allow) <->
  (exists b, In b bindings /\ In m (Members b)) /\
  is_prefix "user:" m /\
  ~ occurs_in org m /\
  (forall d, In d allow -> ~ occurs_in d m).
Proof.
  rewrite In_filterNonOrgMembers, selected_spec. reflexivity.
Qed.

(** C2: on the worked example (organization [example.com], allow-list
    [contractor.example.com], one binding with four members) the removal set
    is the one member [user:eve@gmail.com]. *)
Example filterNonOrgMembers_worked_example :
  filterNonOrgMembers "example.com"
    [mkBinding "roles/owner"
       ["user:bob@example.com"; "user:eve@gmail.com";
        "user:carl@contractor.example.com"; "group:team@example.com"]]
    ["contractor.example.com"]
  = ["user:eve@gmail.com"].
Proof. vm_compute. reflexivity. Qed.

(** C3: once the removal set is removed from every binding, recomputing the
    removal set on the resulting bindings gives the empty list. *)
Theorem filterNonOrgMembers_idempotent
    (org : string) (bindings : list Binding) (allow : list string) :
  filterNonOrgMembers org
    (removeMembers (filterNonOrgMembers org bindings allow) bindings) allow
  = [].
Proof.
  apply no_member_nil. intros m Hm.
  apply In_filterNonOrgMembers in Hm.
  destruct Hm as [(b' & Hb' & Hin) Hsel].
  unfold removeMembers in Hb'. apply in_map_iff in Hb'.
  destruct Hb' as (b & <- & Hb).
  simpl in Hin. apply filter_In in Hin. destruct Hin as [Hin Hnot].
  apply negb_true_iff in Hnot.
  assert (Hrem : In m (filterNonOrgMembers org bindings allow)).
  { apply In_filterNonOrgMembers. split; [now exists b | assumption]. }
  assert (Hex : existsb (String.eqb m)
                  (filterNonOrgMembers org bindings allow) = true).
  { apply existsb_exists. exists m. split; [assumption | apply String.eqb_refl]. }
  congruence.
Qed.

(** C4: reordering the bindings and the members of each binding changes
    neither which members are returned nor how often, only their order. *)
Theorem filterNonOrgMembers_reordered
    (org : string) (allow : list string) (bindings bindings' : list Binding) :
  reordered bindings bindings' ->
  (forall m, In m (filterNonOrgMembers org bindings allow) <->
             In m (filterNonOrgMembers org bindings' allow)) /\
  Permutation (filterNonOrgMembers org bindings allow)
              (filterNonOrgMembers org bindings' allow).
Proof.
  intros H.
  assert (P : Permutation (filterNonOrgMembers org bindings allow)
                          (filterNonOrgMembers org bindings' allow)).
  { rewrite !filterNonOrgMembers_allMembers.
    apply Permutation_filter_compat. now apply allMembers_reordered. }
  split; [|exact P].
  intros m. split; apply Permutation_in; [exact P | now apply Permutation_sym].
Qed.

Lemma filterNonOrgMembers_reordered_witness :
  let b1 := mkBinding "roles/owner" ["user:eve@gmail.com"; "user:bob@example.com"] in
  let b1' := mkBinding "roles/owner" ["user:bob@example.com"; "user:eve@gmail.com"] in
  let b2 := mkBinding "roles/viewer" ["user:mallory@evil.org"] in
  reordered [b1; b2] [b2; b1'] /\
  Permutation (filterNonOrgMembers "example.com" [b1; b2] [])
              (filterNonOrgMembers "example.com" [b2; b1'] []).
Proof.
  intros b1 b1' b2.
  assert (H : reordered [b1; b2] [b2; b1']).
  { exists [b1'; b2]. split.
    - constructor; [|constructor; [|constructor]].
      + split; [reflexivity | apply perm_swap].
      + split; [reflexivity | apply Permutation_refl].
    - apply perm_swap. }
  split; [exact H|].
  exact (proj2 (filterNonOrgMembers_reordered "example.com" [] _ _ H)).
Defined.

(** C5: the result lists the selected members binding after binding, and
    within a binding in the order of its members; a member is listed once for
    each of its selected occurrences. *)
Theorem filterNonOrgMembers_order
    (org : string) (bindings : list Binding) (allow : list string) :
  filterNonOrgMembers org bindings allow =
    flat_map (fun b => filter (selected org allow) (Members b)) bindings /\
  forall m,
    count_occ string_dec (filterNonOrgMembers org bindings allow) m =
    if selected org allow m
    then count_occ string_dec (allMembers bindings) m
    else 0.
Proof.
  split.
  - apply filterNonOrgMembers_flat_map.
  - intros m. rewrite filterNonOrgMembers_allMembers.
    apply count_occ_filter_selected.
Qed.

(** C10: with the empty organization display name the removal set is empty,
    whatever the bindings and the allow-list: every member contains the
    empty string. *)
Theorem filterNonOrgMembers_empty_org
    (bindings : list Binding) (allow : list string) :
  filterNonOrgMembers "" bindings allow = [].
Proof.
  rewrite filterNonOrgMembers_allMembers. apply filter_none.
  intros m _. unfold selected, notFromOrg.
  rewrite strings_facts.Contains_empty. simpl. now rewrite andb_false_r.
Qed.

(** ** Running a program: equations *)

Section Running.
Context {call : Type} {resp : call -> Type} {W : Type}.
Variable h : handler call resp W.

Lemma run_Ret {A} (a : A) w : run h (Ret a) w = ([], a, w).
Proof. reflexivity. Qed.

Lemma run_Do {A} c (k : resp c -> Prog call resp A) w r w1 :
  h c w = (r, w1) ->
  run h (Do c k) w =
  (c :: calls_of (run h (k r) w1), returned (run h (k r) w1),
   snd (run h (k r) w1)).
Proof.
  intros E. simpl. rewrite E. unfold calls_of, returned.
  now destruct (run h (k r) w1) as [[tr a] w2].
Qed.

Lemma run_bind {A B} (p : Prog call resp A) (f : A -> Prog call resp B) w :
  run h (bind p f) w =
  let o := run h p w in
  let o' := run h (f (returned o)) (snd o) in
  (calls_of o ++ calls_of o', returned o', snd o').
Proof.
  revert w. induction p as [a|c k IH]; intros w; cbv zeta.
  - unfold calls_of, returned. simpl.
    destruct (run h (f a) w) as [[tr b] w2]. reflexivity.
  - simpl. destruct (h c w) as [r w1]. rewrite IH. cbv zeta.
    unfold calls_of, returned.
    destruct (run h (k r) w1) as [[tr a] w2]. simpl.
    destruct (run h (f a) w2) as [[tr' b] w3]. reflexivity.
Qed.

End Running.

(** ** [Execute] *)

Section ExecuteFacts.
Context {W : Type}.
Variable h : handler ExecuteCall ExecuteResp W.
Variables (ctx : Context) (required : Required) (ent : Entity).

(** The disabled rule only writes its log line. *)
Lemma run_Execute_disabled w :
  Enabled (RemoveNonOrgMembers (Configuration ent)) = false ->
  run h (Execute ctx required ent) w =
  ([log_Println
      "remove non-org members execution disabled: check settings.json."],
   None,
   snd (h (log_Println
      "remove non-org members execution disabled: check settings.json.") w)).
Proof.
  intros E. unfold Execute. rewrite E. simpl.
  now destruct (h _ w) as [[] w1].
Qed.

(** The enabled rule starts with the organization lookup, whatever the
    allow-list. *)
Lemma run_Execute_enabled_first w :
  Enabled (RemoveNonOrgMembers (Configuration ent)) = true ->
  exists tr,
    calls_of (run h (Execute ctx required ent) w) =
    Resource_Organization ctx (OrganizationName required) :: tr.
Proof.
  intros E. unfold Execute. rewrite E. simpl.
  destruct (h _ w) as [r w1].
  match goal with
  | |- context [run h ?p w1] => destruct (run h p w1) as [[tr a] w2]
  end.
  now exists tr.
Qed.

Lemma run_Execute_organization_fails w err w1 :
  Enabled (RemoveNonOrgMembers (Configuration ent)) = true ->
  h (Resource_Organization ctx (OrganizationName required)) w = (Err err, w1) ->
  run h (Execute ctx required ent) w =
  ([Resource_Organization ctx (OrganizationName required)],
   Some (Wrap err ("failed to get organization: " ++ OrganizationName required)),
   w1).
Proof.
  intros E H0. unfold Execute. rewrite E. simpl. now rewrite H0.
Qed.

Lemma run_Execute_policy_fails w organization w1 err w2 :
  Enabled (RemoveNonOrgMembers (Configuration ent)) = true ->
  h (Resource_Organization ctx (OrganizationName required)) w
    = (Ok organization, w1) ->
  h (Resource_PolicyOrganization ctx (Name organization)) w1 = (Err err, w2) ->
  run h (Execute ctx required ent) w =
  ([Resource_Organization ctx (OrganizationName required);
    Resource_PolicyOrganization ctx (Name organization)],
   Some (Wrap err "failed to retrieve organization policies"),
   w2).
Proof.
  intros E H0 H1. unfold Execute. rewrite E. simpl. rewrite H0. simpl.
  now rewrite H1.
Qed.

Lemma run_Execute_update_fails w organization w1 policy w2 err w3 :
  Enabled (RemoveNonOrgMembers (Configuration ent)) = true ->
  h (Resource_Organization ctx (OrganizationName required)) w
    = (Ok organization, w1) ->
  h (Resource_PolicyOrganization ctx (Name organization)) w1
    = (Ok policy, w2) ->
  h (Resource_RemoveMembersOrganization ctx (Name organization)
       (filterNonOrgMembers (DisplayName organization) (Bindings policy)
          (AllowDomains (RemoveNonOrgMembers (Configuration ent))))
       policy) w2 = (Err err, w3) ->
  run h (Execute ctx required ent) w =
  ([Resource_Organization ctx (OrganizationName required);
    Resource_PolicyOrganization ctx (Name organization);
    Resource_RemoveMembersOrganization ctx (Name organization)
      (filterNonOrgMembers (DisplayName organization) (Bindings policy)
         (AllowDomains (RemoveNonOrgMembers (Configuration ent)))) policy],
   Some (Wrap err "failed to remove organization policies"),
   w3).
Proof.
  intros E H0 H1 H2. unfold Execute. rewrite E. simpl. rewrite H0. simpl.
  rewrite H1. simpl. now rewrite H2.
Qed.

End ExecuteFacts.

(** C6: with the rule's enabled flag false, [Execute] returns nil and makes
    no call to the Resource collaborator, whatever the collaborator, the
    context and the required value; its only action is the log line. *)
Theorem Execute_disabled_no_calls {W : Type}
    (h : handler ExecuteCall ExecuteResp W) (w : W)
    (ctx : Context) (required : Required) (ent : Entity) :
  Enabled (RemoveNonOrgMembers (Configuration ent)) = false ->
  returned (run h (Execute ctx required ent) w) = None /\
  collaboratorCalls (calls_of (run h (Execute ctx required ent) w)) = [] /\
  calls_of (run h (Execute ctx required ent) w) =
    [log_Println
       "remove non-org members execution disabled: check settings.json."].
Proof.
  intros E. rewrite (run_Execute_disabled h ctx required ent w E).
  repeat split.
Qed.

Lemma Execute_disabled_no_calls_witness :
  let ent := mkEntity (mkConfiguration
               (mkRemoveNonOrgMembersConf false ["contractor.example.com"])) in
  let h := fakeResource (Ok (mkOrganization "organizations/1037840971520"
                               "example.com"))
             (Ok (mkPolicy [])) (Ok (mkPolicy [])) in
  let o := run h (Execute (mkContext None)
                    (mkRequired "organizations/1037840971520") ent) 0 in
  Enabled (RemoveNonOrgMembers (Configuration ent)) = false /\
  returned o = None /\ collaboratorCalls (calls_of o) = [].
Proof.
  intros ent h o. split; [reflexivity|].
  destruct (Execute_disabled_no_calls h 0 (mkContext None)
              (mkRequired "organizations/1037840971520") ent eq_refl)
    as (R & C & _).
  split; [exact R | exact C].
Defined.




(** ** [RevokeExternalGrantsFolders] *)

Section EntryFacts.
Context `{FmtEnv} {W : Type}.
Variable h : handler EntryCall EntryResp W.
Variables (env : Environ) (ctx : Context) (m : Message).

(** When the logger client cannot be created nothing else is called. *)
Lemma run_Revoke_logger_fails w err w1 :
  h (clients_NewLogger ctx authFile) w = (Err err, w1) ->
  run h (RevokeExternalGrantsFolders env ctx m) w =
  ([clients_NewLogger ctx authFile],
   Some (Errorf_q "failed to initialize logger client: " err), w1).
Proof.
  intros H0. unfold RevokeExternalGrantsFolders. simpl. now rewrite H0.
Qed.

(** With a logger and a missing variable: the logger is made, writes its
    line and is closed; the error names the first missing variable. *)
Lemma run_Revoke_missing w lg w1 :
  h (clients_NewLogger ctx authFile) w = (Ok lg, w1) ->
  Getenv env "folder_ids" = "" \/ Getenv env "disallowed" = "" ->
  let l := fst (h (entities_NewLogger lg) w1) in
  calls_of (run h (RevokeExternalGrantsFolders env ctx m) w) =
    [clients_NewLogger ctx authFile; entities_NewLogger lg;
     Logger_Info l "Initializing external members IAM removal";
     Logger_Close l] /\
  returned (run h (RevokeExternalGrantsFolders env ctx m) w) =
    Some (errorString
            (if String.eqb (Getenv env "folder_ids") ""
             then "folder_ids environment variable not found"
             else "disallowed environment variable not found")).
Proof.
  intros H0 Hmiss. unfold RevokeExternalGrantsFolders. simpl. rewrite H0.
  simpl. destruct (h (entities_NewLogger lg) w1) as [l w2]. simpl.
  destruct (h (Logger_Info l _) w2) as [[] w3].
  destruct (String.eqb (Getenv env "folder_ids") "") eqn:E1.
  - simpl. destruct (h (Logger_Close l) w3) as [[] w4]. now split.
  - destruct Hmiss as [Hf|Hd].
    + rewrite Hf in E1. discriminate.
    + rewrite Hd. simpl. destruct (h (Logger_Close l) w3) as [[] w4].
      now split.
Qed.

End EntryFacts.

(** C7 (as the code has it): an invocation of [RevokeExternalGrantsFolders]
    in which [folder_ids] or [disallowed] is missing makes no
    resource-manager, storage or policy call.  When the logger client is
    created, its calls are exactly these, in this order: the logger client
    and the logger are made, the logger writes its start line, and the logger
    is closed by the deferred call; it returns the error naming the missing
    variable, [folder_ids] first.  When the logger client cannot be created,
    that creation is its only call and it returns the logger's error
    instead.  [Execute] checks no parameter: with the rule enabled it looks
    the organization up whatever the allow-list. *)
Theorem RevokeExternalGrantsFolders_missing_parameter `{FmtEnv} {W : Type}
    (h : handler EntryCall EntryResp W) (w : W)
    (env : Environ) (ctx : Context) (m : Message) :
  Getenv env "folder_ids" = "" \/ Getenv env "disallowed" = "" ->
  filter isResourceCall
    (calls_of (run h (RevokeExternalGrantsFolders env ctx m) w)) = [] /\
  (forall lg w1,
     h (clients_NewLogger ctx authFile) w = (Ok lg, w1) ->
     calls_of (run h (RevokeExternalGrantsFolders env ctx m) w) =
       [clients_NewLogger ctx authFile;
        entities_NewLogger lg;
        Logger_Info (fst (h (entities_NewLogger lg) w1))
          "Initializing external members IAM removal";
        Logger_Close (fst (h (entities_NewLogger lg) w1))] /\
     returned (run h (RevokeExternalGrantsFolders env ctx m) w) =
     Some (errorString
             (if String.eqb (Getenv env "folder_ids") ""
              then "folder_ids environment variable not found"
              else "disallowed environment variable not found"))) /\
  (forall err w1,
     h (clients_NewLogger ctx authFile) w = (Err err, w1) ->
     calls_of (run h (RevokeExternalGrantsFolders env ctx m) w) =
       [clients_NewLogger ctx authFile] /\
     returned (run h (RevokeExternalGrantsFolders env ctx m) w) =
     Some (Errorf_q "failed to initialize logger client: " err)) /\
  (forall (V : Type) (g : handler ExecuteCall ExecuteResp V) (v : V)
          (required : Required) (ent : Entity),
     Enabled (RemoveNonOrgMembers (Configuration ent)) = true ->
     exists tr,
       calls_of (run g (Execute ctx required ent) v) =
       Resource_Organization ctx (OrganizationName required) :: tr).
Proof.
  intros Hmiss.
  destruct (h (clients_NewLogger ctx authFile) w) as [[lg|err] w1] eqn:H0.
  - destruct (run_Revoke_missing h env ctx m w lg w1 H0 Hmiss) as [Hc Hr].
    split; [rewrite Hc; reflexivity|].
    split; [|split].
    + intros lg' w1' Heq. injection Heq as <- <-. split; [exact Hc | exact Hr].
    + intros err w1' Habs. discriminate.
    + intros V g v required ent E. now apply run_Execute_enabled_first.
  - rewrite (run_Revoke_logger_fails h env ctx m w err w1 H0).
    split; [reflexivity|].
    split; [|split].
    + intros lg w1' Habs. discriminate.
    + intros err' w1' Heq. injection Heq as <- _. split; reflexivity.
    + intros V g v required ent E. now apply run_Execute_enabled_first.
Qed.

Lemma RevokeExternalGrantsFolders_missing_parameter_witness :
  let env := [("folder_ids", "4711,4712")] in
  let ctx := mkContext None in
  let o := run (fakeClients (Ok (mkLoggerClient 0)))
             (@RevokeExternalGrantsFolders plainQuote env ctx
                (mkMessage "1" "{}")) 0 in
  (Getenv env "folder_ids" = "" \/ Getenv env "disallowed" = "") /\
  filter isResourceCall (calls_of o) = [] /\
  calls_of o =
    [clients_NewLogger ctx authFile;
     entities_NewLogger (mkLoggerClient 0);
     Logger_Info (mkLogger 1) "Initializing external members IAM removal";
     Logger_Close (mkLogger 1)] /\
  returned o = Some (errorString "disallowed environment variable not found").
Proof.
  intros env ctx o.
  assert (Hmiss : Getenv env "folder_ids" = "" \/ Getenv env "disallowed" = "")
    by (right; reflexivity).
  split; [exact Hmiss|].
  destruct (@RevokeExternalGrantsFolders_missing_parameter plainQuote nat
              (fakeClients (Ok (mkLoggerClient 0))) 0 env ctx
              (mkMessage "1" "{}") Hmiss) as (Hc & Hok & _ & _).
  split; [exact Hc|].
  exact (Hok (mkLoggerClient 0) 1 eq_refl).
Defined.

(** C7, as the spec states it, fails.  [Execute] with the rule enabled and
    no allow-list returns nil after its three calls to the Resource
    collaborator; and [RevokeExternalGrantsFolders] without [folder_ids]
    returns the logger's error, not the error about the variable, when the
    logger client cannot be created. *)
Lemma missing_parameter_counterexample :
  let ent := mkEntity (mkConfiguration (mkRemoveNonOrgMembersConf true [])) in
  let org := mkOrganization "organizations/1037840971520" "example.com" in
  let pol := mkPolicy [mkBinding "roles/owner" ["user:eve@gmail.com"]] in
  let ctx := mkContext None in
  let o := run (fakeResource (Ok org) (Ok pol) (Ok (mkPolicy [])))
             (Execute ctx (mkRequired "organizations/1037840971520") ent) 0 in
  let o' := run (fakeClients (Err (errorString "no credentials")))
              (@RevokeExternalGrantsFolders plainQuote [] ctx
                 (mkMessage "1" "{}")) 0 in
  (Enabled (RemoveNonOrgMembers (Configuration ent)) = true /\
   AllowDomains (RemoveNonOrgMembers (Configuration ent)) = [] /\
   returned o = None /\
   collaboratorCalls (calls_of o) =
     [Resource_Organization ctx "organizations/1037840971520";
      Resource_PolicyOrganization ctx "organizations/1037840971520";
      Resource_RemoveMembersOrganization ctx "organizations/1037840971520"
        ["user:eve@gmail.com"] pol] /\
   ~ (exists e, returned o = Some e /\ collaboratorCalls (calls_of o) = []))
  /\
  (Getenv [] "folder_ids" = "" /\
   returned o' <> Some (errorString "folder_ids environment variable not found")
   /\ returned o' <> Some (errorString "disallowed environment variable not found")
   /\ exists text, returned o' = Some (errorString text) /\
        strings.HasPrefix text "failed to initialize logger client: " = true).
Proof.
  cbv zeta. split.
  - repeat split; try (vm_compute; reflexivity).
    intros (e & He & _). vm_compute in He. discriminate.
  - repeat split; try (vm_compute; discriminate).
    eexists. split; vm_compute; reflexivity.
Qed.

(** ** [ReadFinding] *)

Section ReadFindingFacts.
Context `{FindingEnv}.

Lemma ReadFinding_undecodable b err :
  json_Unmarshal b = Err err ->
  ReadFinding b = Err (Wrap ErrUnmarshal (Error err)).
Proof. intros E. unfold ReadFinding. now rewrite E. Qed.

Lemma ReadFinding_other_category b finding :
  json_Unmarshal b = Ok finding ->
  GetCategory (GetFinding finding) <> "NON_ORG_IAM_MEMBER" ->
  ReadFinding b = Err ErrValueNotFound.
Proof.
  intros E Hc. unfold ReadFinding. rewrite E.
  apply String.eqb_neq in Hc. now rewrite Hc.
Qed.

Lemma ReadFinding_empty_name b finding :
  json_Unmarshal b = Ok finding ->
  sha_OrganizationName (GetParent (GetFinding finding)) = "" ->
  ReadFinding b = Err ErrValueNotFound.
Proof.
  intros E Hn. unfold ReadFinding. rewrite E.
  destruct (String.eqb (GetCategory (GetFinding finding)) "NON_ORG_IAM_MEMBER").
  - simpl. now rewrite Hn.
  - reflexivity.
Qed.

(** The remaining case: the finding is read. *)
Lemma ReadFinding_found b finding :
  json_Unmarshal b = Ok finding ->
  GetCategory (GetFinding finding) = "NON_ORG_IAM_MEMBER" ->
  sha_OrganizationName (GetParent (GetFinding finding)) <> "" ->
  ReadFinding b =
  Ok (mkRequired (sha_OrganizationName (GetParent (GetFinding finding)))).
Proof.
  intros E Hc Hn. unfold ReadFinding. rewrite E, Hc. simpl.
  apply String.eqb_neq in Hn. now rewrite Hn.
Qed.

End ReadFindingFacts.

(** C9: [ReadFinding] answers [ErrUnmarshal], wrapped with the decoder's
    message, for a payload that does not decode, and [ErrValueNotFound] for a
    payload that decodes to a finding of another category or to one whose
    organization name is empty.  It is a function of the payload: it makes no
    call and reads no state. *)
Theorem ReadFinding_errors `{FindingEnv} (b : string) :
  (forall err,
     json_Unmarshal b = Err err ->
     ReadFinding b = Err (Wrap ErrUnmarshal (Error err)) /\
     Cause (Wrap ErrUnmarshal (Error err)) = Cause ErrUnmarshal) /\
  (forall finding,
     json_Unmarshal b = Ok finding ->
     GetCategory (GetFinding finding) <> "NON_ORG_IAM_MEMBER" \/
     sha_OrganizationName (GetParent (GetFinding finding)) = "" ->
     ReadFinding b = Err ErrValueNotFound).
Proof.
  split.
  - intros err E. split; [now apply ReadFinding_undecodable | reflexivity].
  - intros finding E [Hc|Hn].
    + now apply ReadFinding_other_category with (finding := finding).
    + now apply ReadFinding_empty_name with (finding := finding).
Qed.

Lemma ReadFinding_errors_witness :
  @ReadFinding sampleFindingEnv "{"
    = Err (Wrap (errorString "failed to unmarshal")
             "unexpected end of JSON input") /\
  @ReadFinding sampleFindingEnv "{}" = Err (errorString "value not found").
Proof.
  split.
  - exact (proj1 (proj1 (@ReadFinding_errors sampleFindingEnv "{")
                    (errorString "unexpected end of JSON input") eq_refl)).
  - apply (proj2 (@ReadFinding_errors sampleFindingEnv "{}")
             (mkIamScanner None) eq_refl).
    left. simpl. discriminate.
Defined.

(** ** Further properties of the Membership Diff Engine *)

Lemma notWhitelisted_app m a1 a2 :
  notWhitelisted m (a1 ++ a2) = notWhitelisted m a1 && notWhitelisted m a2.
Proof.
  induction a1 as [|d a1 IH]; simpl.
  - reflexivity.
  - destruct (strings.Contains m d); [reflexivity | exact IH].
Qed.

Lemma filter_filter_and {A} (f g : A -> bool) (l : list A) :
  filter g (filter f l) = filter (fun x => f x && g x) l.
Proof.
  induction l as [|x l IH]; simpl.
  - reflexivity.
  - destruct (f x); simpl; [destruct (g x); now rewrite IH | exact IH].
Qed.

(** X1: the removal set of a policy whose bindings are those of two
    policies, one after the other, is the removal set of the first followed by that of the
    second. *)
Theorem filterNonOrgMembers_app
    (org : string) (bs1 bs2 : list Binding) (allow : list string) :
  filterNonOrgMembers org (bs1 ++ bs2) allow =
  filterNonOrgMembers org bs1 allow ++ filterNonOrgMembers org bs2 allow.
Proof.
  rewrite !filterNonOrgMembers_flat_map. apply flat_map_app.
Qed.

(** X2: extending the allow-list never adds a removal: the removal set for the
    longer list is the removal set for the shorter one, without the members
    that contain one of the added domains. *)
Theorem filterNonOrgMembers_allow_app
    (org : string) (bindings : list Binding) (allow more : list string) :
  filterNonOrgMembers org bindings (allow ++ more) =
  filter (fun m => notWhitelisted m more)
         (filterNonOrgMembers org bindings allow).
Proof.
  rewrite !filterNonOrgMembers_allMembers, filter_filter_and.
  apply filter_ext. intros m. unfold selected.
  now rewrite notWhitelisted_app, andb_assoc.
Qed.

(** X3: an empty string among the allowed domains switches the rule off: every
    member contains it, so nothing is selected. *)
Theorem filterNonOrgMembers_empty_allowed_domain
    (org : string) (bindings : list Binding) (allow : list string) :
  In "" allow -> filterNonOrgMembers org bindings allow = [].
Proof.
  intros Hin. rewrite filterNonOrgMembers_allMembers. apply filter_none.
  intros m _. unfold selected.
  assert (Hw : notWhitelisted m allow = false).
  { destruct (notWhitelisted m allow) eqn:E; [|reflexivity].
    rewrite notWhitelisted_spec in E. specialize (E "" Hin).
    now rewrite strings_facts.Contains_empty in E. }
  rewrite Hw. apply andb_false_r.
Qed.

Lemma filterNonOrgMembers_empty_allowed_domain_witness :
  In "" ["contractor.example.com"; ""] /\
  filterNonOrgMembers "example.com"
    [mkBinding "roles/owner" ["user:eve@gmail.com"]]
    ["contractor.example.com"; ""] = [].
Proof.
  assert (H : In "" ["contractor.example.com"; ""]) by (right; left; reflexivity).
  split; [exact H|].
  exact (filterNonOrgMembers_empty_allowed_domain "example.com" _ _ H).
Defined.

(** X4: a removal set is stable: every one of its members is selected again when
    the set is itself taken as the members of a binding. *)
Theorem filterNonOrgMembers_stable
    (org role : string) (bindings : list Binding) (allow : list string) :
  filterNonOrgMembers org
    [mkBinding role (filterNonOrgMembers org bindings allow)] allow
  = filterNonOrgMembers org bindings allow.
Proof.
  rewrite (filterNonOrgMembers_allMembers org allow [_]).
  unfold allMembers at 1. simpl. rewrite app_nil_r.
  rewrite filterNonOrgMembers_allMembers, filter_filter_and.
  apply filter_ext. intros m. now destruct (selected org allow m).
Qed.

(** ** Further properties of [Execute] *)

Section ExecuteOutcomes.
Context {W : Type}.
Variable h : handler ExecuteCall ExecuteResp W.
Variables (ctx : Context) (required : Required) (ent : Entity).

Lemma run_Execute_all_succeed w organization w1 policy w2 updated w3 :
  Enabled (RemoveNonOrgMembers (Configuration ent)) = true ->
  h (Resource_Organization ctx (OrganizationName required)) w
    = (Ok organization, w1) ->
  h (Resource_PolicyOrganization ctx (Name organization)) w1
    = (Ok policy, w2) ->
  h (Resource_RemoveMembersOrganization ctx (Name organization)
       (filterNonOrgMembers (DisplayName organization) (Bindings policy)
          (AllowDomains (RemoveNonOrgMembers (Configuration ent))))
       policy) w2 = (Ok updated, w3) ->
  run h (Execute ctx required ent) w =
  ([Resource_Organization ctx (OrganizationName required);
    Resource_PolicyOrganization ctx (Name organization);
    Resource_RemoveMembersOrganization ctx (Name organization)
      (filterNonOrgMembers (DisplayName organization) (Bindings policy)
         (AllowDomains (RemoveNonOrgMembers (Configuration ent)))) policy;
    log_Printf
      ("removed members: " ++
       fmt_s (filterNonOrgMembers (DisplayName organization) (Bindings policy)
                (AllowDomains (RemoveNonOrgMembers (Configuration ent)))))],
   None,
   snd (h (log_Printf
      ("removed members: " ++
       fmt_s (filterNonOrgMembers (DisplayName organization) (Bindings policy)
                (AllowDomains (RemoveNonOrgMembers (Configuration ent)))))) w3)).
Proof.
  intros E H0 H1 H2. unfold Execute. rewrite E. simpl. rewrite H0. simpl.
  rewrite H1. simpl. rewrite H2. simpl.
  now destruct (h (log_Printf _) w3) as [[] w4].
Qed.

(** The enabled rule ends in one of four ways, by the first call that
    fails. *)
Lemma run_Execute_enabled_cases w :
  Enabled (RemoveNonOrgMembers (Configuration ent)) = true ->
  (exists err w1,
     h (Resource_Organization ctx (OrganizationName required)) w
       = (Err err, w1)) \/
  (exists organization w1,
     h (Resource_Organization ctx (OrganizationName required)) w
       = (Ok organization, w1) /\
     ((exists err w2,
         h (Resource_PolicyOrganization ctx (Name organization)) w1
           = (Err err, w2)) \/
      (exists policy w2,
         h (Resource_PolicyOrganization ctx (Name organization)) w1
           = (Ok policy, w2) /\
         ((exists err w3,
             h (Resource_RemoveMembersOrganization ctx (Name organization)
                  (filterNonOrgMembers (DisplayName organization)
                     (Bindings policy)
                     (AllowDomains (RemoveNonOrgMembers (Configuration ent))))
                  policy) w2 = (Err err, w3)) \/
          (exists updated w3,
             h (Resource_RemoveMembersOrganization ctx (Name organization)
                  (filterNonOrgMembers (DisplayName organization)
                     (Bindings policy)
                     (AllowDomains (RemoveNonOrgMembers (Configuration ent))))
                  policy) w2 = (Ok updated, w3)))))).
Proof.
  intros _.
  destruct (h (Resource_Organization ctx (OrganizationName required)) w)
    as [[organization|err] w1] eqn:H0; [right | left; now exists err, w1].
  exists organization, w1. split; [reflexivity|].
  destruct (h (Resource_PolicyOrganization ctx (Name organization)) w1)
    as [[policy|err] w2] eqn:H1; [right | left; now exists err, w2].
  exists policy, w2. split; [reflexivity|].
  destruct (h (Resource_RemoveMembersOrganization ctx (Name organization)
                 (filterNonOrgMembers (DisplayName organization)
                    (Bindings policy)
                    (AllowDomains (RemoveNonOrgMembers (Configuration ent))))
                 policy) w2)
    as [[updated|err] w3] eqn:H2; [right | left; now exists err, w3].
  now exists updated, w3.
Qed.

End ExecuteOutcomes.

Lemma Contains_appended (pre s : string) :
  strings.Contains (pre ++ s) s = true.
Proof.
  apply strings_facts.Contains_spec. exists pre, "".
  f_equal. induction s as [|c s IH]; simpl; [reflexivity|].
  now rewrite <- IH.
Qed.

(** X5: when the rule is enabled and the three calls succeed, [Execute]
    looks the organization up by the required name, fetches the policy of the
    organization found, and submits, for that organization, the removal set
    computed from its display name, the fetched bindings and the configured
    allow-list, together with the policy as fetched; it then writes one log
    line listing the removal set and returns nil. *)
Theorem Execute_success {W : Type}
    (h : handler ExecuteCall ExecuteResp W) (w : W)
    (ctx : Context) (required : Required) (ent : Entity)
    (organization : Organization) (policy updated : Policy) (w1 w2 w3 : W) :
  Enabled (RemoveNonOrgMembers (Configuration ent)) = true ->
  h (Resource_Organization ctx (OrganizationName required)) w
    = (Ok organization, w1) ->
  h (Resource_PolicyOrganization ctx (Name organization)) w1
    = (Ok policy, w2) ->
  h (Resource_RemoveMembersOrganization ctx (Name organization)
       (filterNonOrgMembers (DisplayName organization) (Bindings policy)
          (AllowDomains (RemoveNonOrgMembers (Configuration ent))))
       policy) w2 = (Ok updated, w3) ->
  returned (run h (Execute ctx required ent) w) = None /\
  calls_of (run h (Execute ctx required ent) w) =
    [Resource_Organization ctx (OrganizationName required);
     Resource_PolicyOrganization ctx (Name organization);
     Resource_RemoveMembersOrganization ctx (Name organization)
       (filterNonOrgMembers (DisplayName organization) (Bindings policy)
          (AllowDomains (RemoveNonOrgMembers (Configuration ent)))) policy;
     log_Printf
       ("removed members: " ++
        fmt_s (filterNonOrgMembers (DisplayName organization)
                 (Bindings policy)
                 (AllowDomains (RemoveNonOrgMembers (Configuration ent)))))].
Proof.
  intros E H0 H1 H2.
  rewrite (run_Execute_all_succeed h ctx required ent w organization w1
             policy w2 updated w3 E H0 H1 H2).
  split; reflexivity.
Qed.

Lemma Execute_success_witness :
  let ent := mkEntity (mkConfiguration
               (mkRemoveNonOrgMembersConf true ["contractor.example.com"])) in
  let org := mkOrganization "organizations/1037840971520" "example.com" in
  let pol := mkPolicy [mkBinding "roles/owner"
                         ["user:bob@example.com"; "user:eve@gmail.com"];
                       mkBinding "roles/viewer"
                         ["user:carl@contractor.example.com";
                          "user:mallory@evil.org"]] in
  let ctx := mkContext None in
  let o := run (fakeResource (Ok org) (Ok pol) (Ok (mkPolicy [])))
             (Execute ctx (mkRequired "organizations/1037840971520") ent) 0 in
  returned o = None /\
  calls_of o =
    [Resource_Organization ctx "organizations/1037840971520";
     Resource_PolicyOrganization ctx "organizations/1037840971520";
     Resource_RemoveMembersOrganization ctx "organizations/1037840971520"
       ["user:eve@gmail.com"; "user:mallory@evil.org"] pol;
     log_Printf "removed members: [user:eve@gmail.com user:mallory@evil.org]"].
Proof.
  intros ent org pol ctx o.
  exact (Execute_success
           (fakeResource (Ok org) (Ok pol) (Ok (mkPolicy []))) 0 ctx
           (mkRequired "organizations/1037840971520") ent org pol
           (mkPolicy []) 1 2 3 eq_refl eq_refl eq_refl eq_refl).
Defined.

(** X6: when the organization lookup fails, [Execute] makes no other call
    and returns the lookup's error wrapped with a message that ends in the
    required organization name; the text of the error returned contains that
    name, and its cause is the cause of the lookup's error. *)
Theorem Execute_organization_failure {W : Type}
    (h : handler ExecuteCall ExecuteResp W) (w : W)
    (ctx : Context) (required : Required) (ent : Entity)
    (err : error) (w1 : W) :
  Enabled (RemoveNonOrgMembers (Configuration ent)) = true ->
  h (Resource_Organization ctx (OrganizationName required)) w
    = (Err err, w1) ->
  calls_of (run h (Execute ctx required ent) w) =
    [Resource_Organization ctx (OrganizationName required)] /\
  exists e,
    returned (run h (Execute ctx required ent) w) = Some e /\
    Error e = ("failed to get organization: " ++ OrganizationName required
               ++ ": " ++ Error err)%string /\
    strings.Contains (Error e) (OrganizationName required) = true /\
    Cause e = Cause err.
Proof.
  intros E H0.
  rewrite (run_Execute_organization_fails h ctx required ent w err w1 E H0).
  split; [reflexivity|].
  eexists. split; [reflexivity|]. split; [reflexivity|].
  split; [|reflexivity].
  apply strings_facts.Contains_spec.
  exists "failed to get organization: ", (": " ++ Error err)%string.
  reflexivity.
Qed.

Lemma Execute_organization_failure_witness :
  let ent := mkEntity (mkConfiguration (mkRemoveNonOrgMembersConf true [])) in
  let ctx := mkContext None in
  let o := run (fakeResource (Err (errorString "not found"))
                  (Ok (mkPolicy [])) (Ok (mkPolicy [])))
             (Execute ctx (mkRequired "organizations/1037840971520") ent) 0 in
  calls_of o = [Resource_Organization ctx "organizations/1037840971520"] /\
  exists e, returned o = Some e /\
    Error e = "failed to get organization: organizations/1037840971520: not found".
Proof.
  intros ent ctx o.
  destruct (Execute_organization_failure
              (fakeResource (Err (errorString "not found"))
                 (Ok (mkPolicy [])) (Ok (mkPolicy []))) 0 ctx
              (mkRequired "organizations/1037840971520") ent
              (errorString "not found") 1 eq_refl eq_refl)
    as (Hc & e & He & Ht & _).
  split; [exact Hc|]. exists e. split; [exact He | exact Ht].
Defined.

Lemma filterNonOrgMembers_allMembers_selected org bs allow m :
  In m (filterNonOrgMembers org bs allow) ->
  In m (allMembers bs) /\
  is_prefix "user:" m /\ ~ occurs_in org m /\
  (forall d, In d allow -> ~ occurs_in d m).
Proof.
  rewrite filterNonOrgMembers_allMembers, filter_In, selected_spec. tauto.
Qed.

(** X7: whatever the collaborator answers, every member [Execute] submits
    for removal is a member of the policy submitted with it, has the prefix
    [user:], does not contain the display name of the organization found, and
    contains none of the configured allowed domains; the policy submitted is
    the one the fetch answered, and the call carries the caller's context. *)
Theorem Execute_submits_only_selected {W : Type}
    (h : handler ExecuteCall ExecuteResp W) (w : W)
    (ctx : Context) (required : Required) (ent : Entity)
    (ctx' : Context) (name : string) (remove : list string)
    (existing : Policy) :
  In (Resource_RemoveMembersOrganization ctx' name remove existing)
     (calls_of (run h (Execute ctx required ent) w)) ->
  ctx' = ctx /\
  exists organization w1 w2,
    h (Resource_Organization ctx (OrganizationName required)) w
      = (Ok organization, w1) /\
    h (Resource_PolicyOrganization ctx (Name organization)) w1
      = (Ok existing, w2) /\
    name = Name organization /\
    forall m, In m remove ->
      In m (allMembers (Bindings existing)) /\
      is_prefix "user:" m /\
      ~ occurs_in (DisplayName organization) m /\
      forall d,
        In d (AllowDomains (RemoveNonOrgMembers (Configuration ent))) ->
        ~ occurs_in d m.
Proof.
  intros Hin.
  destruct (Enabled (RemoveNonOrgMembers (Configuration ent))) eqn:E.
  - destruct (run_Execute_enabled_cases h ctx required ent w E)
      as [(err & w1 & H0)
         |(organization & w1 & H0 &
           [(err & w2 & H1)
           |(policy & w2 & H1 & [(err & w3 & H2)|(updated & w3 & H2)])])].
    + rewrite (run_Execute_organization_fails h ctx required ent w err w1 E H0)
        in Hin.
      simpl in Hin. destruct Hin as [Hc|[]]. discriminate.
    + rewrite (run_Execute_policy_fails h ctx required ent w organization w1
                 err w2 E H0 H1) in Hin.
      simpl in Hin. destruct Hin as [Hc|[Hc|[]]]; discriminate.
    + rewrite (run_Execute_update_fails h ctx required ent w organization w1
                 policy w2 err w3 E H0 H1 H2) in Hin.
      simpl in Hin. destruct Hin as [Hc|[Hc|[Hc|[]]]]; try discriminate.
      injection Hc as <- <- <- <-. split; [reflexivity|].
      exists organization, w1, w2.
      split; [assumption|]. split; [assumption|]. split; [reflexivity|].
      intros m Hm. now apply filterNonOrgMembers_allMembers_selected in Hm.
    + rewrite (run_Execute_all_succeed h ctx required ent w organization w1
                 policy w2 updated w3 E H0 H1 H2) in Hin.
      simpl in Hin. destruct Hin as [Hc|[Hc|[Hc|[Hc|[]]]]]; try discriminate.
      injection Hc as <- <- <- <-. split; [reflexivity|].
      exists organization, w1, w2.
      split; [assumption|]. split; [assumption|]. split; [reflexivity|].
      intros m Hm. now apply filterNonOrgMembers_allMembers_selected in Hm.
  - rewrite (run_Execute_disabled h ctx required ent w E) in Hin.
    simpl in Hin. destruct Hin as [Hc|[]]. discriminate.
Qed.

Lemma Execute_submits_only_selected_witness :
  let ent := mkEntity (mkConfiguration
               (mkRemoveNonOrgMembersConf true ["contractor.example.com"])) in
  let org := mkOrganization "organizations/1037840971520" "example.com" in
  let pol := mkPolicy [mkBinding "roles/owner"
                         ["user:bob@example.com"; "user:eve@gmail.com"]] in
  let ctx := mkContext None in
  let h := fakeResource (Ok org) (Ok pol) (Err (errorString "conflict")) in
  let required := mkRequired "organizations/1037840971520" in
  In (Resource_RemoveMembersOrganization ctx "organizations/1037840971520"
        ["user:eve@gmail.com"] pol)
     (calls_of (run h (Execute ctx required ent) 0)) /\
  is_prefix "user:" "user:eve@gmail.com" /\
  ~ occurs_in "example.com" "user:eve@gmail.com".
Proof.
  intros ent org pol ctx h required.
  assert (Hin : In (Resource_RemoveMembersOrganization ctx
                      "organizations/1037840971520" ["user:eve@gmail.com"] pol)
                   (calls_of (run h (Execute ctx required ent) 0)))
    by (right; right; left; reflexivity).
  split; [exact Hin|].
  destruct (Execute_submits_only_selected h 0 ctx required ent _ _ _ _ Hin)
    as (_ & organization & w1 & w2 & H0 & _ & _ & Hm).
  injection H0 as <- _.
  destruct (Hm "user:eve@gmail.com" (or_introl eq_refl)) as (_ & Hp & Ho & _).
  split; [exact Hp | exact Ho].
Defined.

(** X8: [Execute] reports success only when there was nothing to do or the
    work was done: if it returns nil, the rule is disabled, or the lookup,
    the fetch and the update all answered without error. *)
Theorem Execute_nil_inversion {W : Type}
    (h : handler ExecuteCall ExecuteResp W) (w : W)
    (ctx : Context) (required : Required) (ent : Entity) :
  returned (run h (Execute ctx required ent) w) = None ->
  Enabled (RemoveNonOrgMembers (Configuration ent)) = false \/
  exists organization w1 policy w2 updated w3,
    h (Resource_Organization ctx (OrganizationName required)) w
      = (Ok organization, w1) /\
    h (Resource_PolicyOrganization ctx (Name organization)) w1
      = (Ok policy, w2) /\
    h (Resource_RemoveMembersOrganization ctx (Name organization)
         (filterNonOrgMembers (DisplayName organization) (Bindings policy)
            (AllowDomains (RemoveNonOrgMembers (Configuration ent))))
         policy) w2 = (Ok updated, w3).
Proof.
  intros Hnil.
  destruct (Enabled (RemoveNonOrgMembers (Configuration ent))) eqn:E;
    [right | now left].
  destruct (run_Execute_enabled_cases h ctx required ent w E)
    as [(err & w1 & H0)
       |(organization & w1 & H0 &
         [(err & w2 & H1)
         |(policy & w2 & H1 & [(err & w3 & H2)|(updated & w3 & H2)])])].
  - rewrite (run_Execute_organization_fails h ctx required ent w err w1 E H0)
      in Hnil. discriminate.
  - rewrite (run_Execute_policy_fails h ctx required ent w organization w1
               err w2 E H0 H1) in Hnil. discriminate.
  - rewrite (run_Execute_update_fails h ctx required ent w organization w1
               policy w2 err w3 E H0 H1 H2) in Hnil. discriminate.
  - now exists organization, w1, policy, w2, updated, w3.
Qed.

Lemma Execute_nil_inversion_witness :
  let ent := mkEntity (mkConfiguration (mkRemoveNonOrgMembersConf true [])) in
  let org := mkOrganization "organizations/1037840971520" "example.com" in
  let h := fakeResource (Ok org) (Ok (mkPolicy [])) (Ok (mkPolicy [])) in
  let o := run h (Execute (mkContext None)
                    (mkRequired "organizations/1037840971520") ent) 0 in
  returned o = None /\
  (Enabled (RemoveNonOrgMembers (Configuration ent)) = false \/
   exists organization w1,
     h (Resource_Organization (mkContext None) "organizations/1037840971520") 0
       = (Ok organization, w1)).
Proof.
  intros ent org h o. split; [reflexivity|].
  destruct (Execute_nil_inversion h 0 (mkContext None)
              (mkRequired "organizations/1037840971520") ent eq_refl)
    as [Hd|(organization & w1 & _ & _ & _ & _ & H0 & _)].
  - now left.
  - right. now exists organization, w1.
Defined.

(** ** Further properties of [ReadFinding] *)

(** X9: [ReadFinding] returns a value exactly when the payload decodes to a
    finding of category [NON_ORG_IAM_MEMBER] whose parent yields an
    organization name other than the empty string, and the value holds that
    name; so a value it returns never has an empty organization name. *)
Theorem ReadFinding_ok_iff `{FindingEnv} (b : string) (r : Required) :
  ReadFinding b = Ok r <->
  exists finding,
    json_Unmarshal b = Ok finding /\
    GetCategory (GetFinding finding) = "NON_ORG_IAM_MEMBER" /\
    sha_OrganizationName (GetParent (GetFinding finding)) <> "" /\
    r = mkRequired (sha_OrganizationName (GetParent (GetFinding finding))).
Proof.
  split.
  - unfold ReadFinding.
    destruct (json_Unmarshal b) as [finding|err]; [|discriminate].
    destruct (String.eqb (GetCategory (GetFinding finding))
                "NON_ORG_IAM_MEMBER") eqn:Ec; simpl; [|discriminate].
    destruct (String.eqb
                (sha_OrganizationName (GetParent (GetFinding finding))) "")
      eqn:En; [discriminate|].
    intros Hr. injection Hr as <-.
    apply String.eqb_neq in En. apply String.eqb_eq in Ec.
    now exists finding.
  - intros (finding & E & Hc & Hn & ->).
    now apply ReadFinding_found.
Qed.

(** ** [strings.SplitByte] *)

Module split_facts.
Import strings strings_facts.

Lemma SplitByte_cons s sep : exists f fs, SplitByte s sep = f :: fs.
Proof.
  induction s as [|c s (f & fs & IH)]; simpl.
  - now exists "", [].
  - destruct (Ascii.eqb c sep).
    + now exists "", (SplitByte s sep).
    + rewrite IH. now exists (String c f), fs.
Qed.

Lemma concat_cons sep x y ys :
  String.concat sep (x :: y :: ys) =
  (x ++ sep ++ String.concat sep (y :: ys))%string.
Proof. reflexivity. Qed.

Lemma concat_SplitByte s sep :
  String.concat (String sep "") (SplitByte s sep) = s.
Proof.
  induction s as [|c s IH]; [reflexivity|].
  cbn [SplitByte].
  destruct (SplitByte_cons s sep) as (f & fs & E). rewrite E in *.
  destruct (Ascii.eqb_spec c sep) as [->|Hne].
  - rewrite concat_cons. rewrite IH. reflexivity.
  - destruct fs as [|g fs].
    + cbn in IH |- *. now rewrite IH.
    + rewrite concat_cons in IH |- *. rewrite <- IH. reflexivity.
Qed.

Lemma SplitByte_no_sep s sep f :
  In f (SplitByte s sep) -> ~ occurs_in (String sep "") f.
Proof.
  revert f. induction s as [|c s IH]; intros f; simpl.
  - intros [<-|[]] (a & b & Hab). destruct a; discriminate.
  - destruct (Ascii.eqb_spec c sep) as [->|Hne].
    + intros [<-|Hin].
      * intros (a & b & Hab). destruct a; discriminate.
      * now apply IH.
    + destruct (SplitByte_cons s sep) as (g & gs & E). rewrite E in *.
      intros [<-|Hin].
      * intros (a & b & Hab). destruct a as [|c' a]; simpl in Hab.
        -- injection Hab as Hc _. congruence.
        -- injection Hab as _ Hg.
           apply (IH g (or_introl eq_refl)). now exists a, b.
      * apply IH. now right.
Qed.

End split_facts.

(** ** [RevokeExternalGrantsFolders]: the deferred close and the handover *)

(** X10: once its logger exists, [RevokeExternalGrantsFolders] closes it on
    every path, exactly once, and the close is its last call. *)
Theorem RevokeExternalGrantsFolders_closes_logger `{FmtEnv} {W : Type}
    (h : handler EntryCall EntryResp W) (w : W)
    (env : Environ) (ctx : Context) (m : Message)
    (lg : LoggerClient) (w1 : W) :
  h (clients_NewLogger ctx authFile) w = (Ok lg, w1) ->
  filter isLoggerClose
    (calls_of (run h (RevokeExternalGrantsFolders env ctx m) w)) =
    [Logger_Close (fst (h (entities_NewLogger lg) w1))] /\
  last (calls_of (run h (RevokeExternalGrantsFolders env ctx m) w))
       (clients_NewLogger ctx authFile) =
    Logger_Close (fst (h (entities_NewLogger lg) w1)).
Proof.
  intros H0. unfold RevokeExternalGrantsFolders. simpl. rewrite H0.
  explore h; split; reflexivity.
Qed.

Lemma RevokeExternalGrantsFolders_closes_logger_witness :
  let env := [("folder_ids", "4711,4712"); ("disallowed", "gmail.com")] in
  let o := run (fakeClients (Ok (mkLoggerClient 0)))
             (@RevokeExternalGrantsFolders plainQuote env (mkContext None)
                (mkMessage "1" "{}")) 0 in
  filter isLoggerClose (calls_of o) = [Logger_Close (mkLogger 1)] /\
  last (calls_of o) (clients_NewLogger (mkContext None) authFile)
    = Logger_Close (mkLogger 1).
Proof.
  intros env o.
  exact (@RevokeExternalGrantsFolders_closes_logger plainQuote nat
           (fakeClients (Ok (mkLoggerClient 0))) 0 env (mkContext None)
           (mkMessage "1" "{}") (mkLoggerClient 0) 1 eq_refl).
Defined.

(** X11: [RevokeExternalGrantsFolders] hands over to [cloudfunctions] only
    with both variables set, with its own context and message, and with the
    comma-separated fields of [folder_ids] and of [disallowed]: joined by
    commas the two lists give the variables back, and no field holds a comma.
    A run with a handover makes exactly eight calls, the handover once and
    as the last call before the deferred close, with the resource and the
    logger the collaborators answered; what [cloudfunctions] answers to that
    one call is what the entry point returns. *)
Theorem RevokeExternalGrantsFolders_handover `{FmtEnv} {W : Type}
    (h : handler EntryCall EntryResp W) (w : W)
    (env : Environ) (ctx : Context) (m : Message)
    (ctx' : Context) (m' : Message) (r : Resource) (ids d : list string)
    (l : Logger) :
  In (cloudfunctions_RevokeExternalGrantsFolders ctx' m' r ids d l)
     (calls_of (run h (RevokeExternalGrantsFolders env ctx m) w)) ->
  ctx' = ctx /\ m' = m /\
  Getenv env "folder_ids" <> "" /\ Getenv env "disallowed" <> "" /\
  String.concat "," ids = Getenv env "folder_ids" /\
  String.concat "," d = Getenv env "disallowed" /\
  (forall f, In f ids \/ In f d -> ~ occurs_in "," f) /\
  exists lg crm stg w1 w2 w3 w4 w5 w6,
    h (clients_NewLogger ctx authFile) w = (Ok lg, w1) /\
    h (entities_NewLogger lg) w1 = (l, w2) /\
    h (Logger_Info l "Initializing external members IAM removal") w2
      = (tt, w3) /\
    h (clients_NewCloudResourceManager ctx authFile) w3 = (Ok crm, w4) /\
    h (clients_NewStorage ctx authFile) w4 = (Ok stg, w5) /\
    h (entities_NewResource crm stg) w5 = (r, w6) /\
    calls_of (run h (RevokeExternalGrantsFolders env ctx m) w) =
      [clients_NewLogger ctx authFile;
       entities_NewLogger lg;
       Logger_Info l "Initializing external members IAM removal";
       clients_NewCloudResourceManager ctx authFile;
       clients_NewStorage ctx authFile;
       entities_NewResource crm stg;
       cloudfunctions_RevokeExternalGrantsFolders ctx m r ids d l;
       Logger_Close l] /\
    returned (run h (RevokeExternalGrantsFolders env ctx m) w) =
      fst (h (cloudfunctions_RevokeExternalGrantsFolders ctx m r ids d l) w6).
Proof.
  unfold RevokeExternalGrantsFolders.
  explore h; intros Hin; not_among Hin.
  all: injection Hin as <- <- <- <- <- <-.
  all: apply String.eqb_neq in V, V0.
  all: do 4 (split; [first [reflexivity | assumption]|]).
  all: split; [apply split_facts.concat_SplitByte|].
  all: split; [apply split_facts.concat_SplitByte|].
  all: split;
    [intros f [Hf|Hf]; revert Hf; apply split_facts.SplitByte_no_sep|].
  all: do 9 eexists; do 6 (split; [first [reflexivity | eassumption]|]).
  all: match goal with
       | E : _ (cloudfunctions_RevokeExternalGrantsFolders _ _ _ _ _ _) _
             = _ |- _ => rewrite E
       end; split; reflexivity.
Qed.

Lemma RevokeExternalGrantsFolders_handover_witness :
  let env := [("folder_ids", "4711,4712"); ("disallowed", "gmail.com")] in
  let ctx := mkContext None in
  let msg := mkMessage "1" "{}" in
  let o := run (fakeClients (Ok (mkLoggerClient 0)))
             (@RevokeExternalGrantsFolders plainQuote env ctx msg) 0 in
  In (cloudfunctions_RevokeExternalGrantsFolders ctx msg (mkResource 5)
        ["4711"; "4712"] ["gmail.com"] (mkLogger 1)) (calls_of o) /\
  String.concat "," ["4711"; "4712"] = Getenv env "folder_ids" /\
  returned o = None.
Proof.
  intros env ctx msg o.
  assert (Hin : In (cloudfunctions_RevokeExternalGrantsFolders ctx msg
                      (mkResource 5) ["4711"; "4712"] ["gmail.com"]
                      (mkLogger 1)) (calls_of o))
    by (do 6 right; left; reflexivity).
  split; [exact Hin|].
  destruct (@RevokeExternalGrantsFolders_handover plainQuote nat
              (fakeClients (Ok (mkLoggerClient 0))) 0 env ctx msg
              _ _ _ _ _ _ Hin)
    as (_ & _ & _ & _ & Hids & _ & _ &
        lg & crm & stg & w1 & w2 & w3 & w4 & w5 & w6 &
        _ & _ & _ & _ & _ & _ & _ & Hr).
  split; [exact Hids|].
  unfold o. rewrite Hr. reflexivity.
Defined.

(** X12: with both variables set and clients that can be created,
    [RevokeExternalGrantsFolders] makes exactly eight calls: it makes the
    logger, writes its start line, creates the resource-manager and storage
    clients and the resource, hands over once to [cloudfunctions] with the
    fields of the two variables, and closes the logger; it returns what
    [cloudfunctions] answered to that one call. *)
Theorem RevokeExternalGrantsFolders_success `{FmtEnv} {W : Type}
    (h : handler EntryCall EntryResp W) (w : W)
    (env : Environ) (ctx : Context) (m : Message) :
  (forall w0, exists lg w1,
      h (clients_NewLogger ctx authFile) w0 = (Ok lg, w1)) ->
  (forall w0, exists crm w1,
      h (clients_NewCloudResourceManager ctx authFile) w0 = (Ok crm, w1)) ->
  (forall w0, exists stg w1,
      h (clients_NewStorage ctx authFile) w0 = (Ok stg, w1)) ->
  Getenv env "folder_ids" <> "" ->
  Getenv env "disallowed" <> "" ->
  exists lg l crm stg r w1 w2 w3 w4 w5 w6,
    h (clients_NewLogger ctx authFile) w = (Ok lg, w1) /\
    h (entities_NewLogger lg) w1 = (l, w2) /\
    h (Logger_Info l "Initializing external members IAM removal") w2
      = (tt, w3) /\
    h (clients_NewCloudResourceManager ctx authFile) w3 = (Ok crm, w4) /\
    h (clients_NewStorage ctx authFile) w4 = (Ok stg, w5) /\
    h (entities_NewResource crm stg) w5 = (r, w6) /\
    calls_of (run h (RevokeExternalGrantsFolders env ctx m) w) =
      [clients_NewLogger ctx authFile;
       entities_NewLogger lg;
       Logger_Info l "Initializing external members IAM removal";
       clients_NewCloudResourceManager ctx authFile;
       clients_NewStorage ctx authFile;
       entities_NewResource crm stg;
       cloudfunctions_RevokeExternalGrantsFolders ctx m r
         (strings.SplitByte (Getenv env "folder_ids") ",")
         (strings.SplitByte (Getenv env "disallowed") ",") l;
       Logger_Close l] /\
    returned (run h (RevokeExternalGrantsFolders env ctx m) w) =
      fst (h (cloudfunctions_RevokeExternalGrantsFolders ctx m r
                (strings.SplitByte (Getenv env "folder_ids") ",")
                (strings.SplitByte (Getenv env "disallowed") ",") l) w6).
Proof.
  intros Hlg Hcrm Hstg Hf Hd.
  apply String.eqb_neq in Hf, Hd.
  unfold RevokeExternalGrantsFolders. rewrite Hf, Hd.
  explore h.
  all: try match goal with
       | E : _ (clients_NewLogger _ _) ?w0 = (Err _, _) |- _ =>
           destruct (Hlg w0) as (? & ? & E'); congruence
       | E : _ (clients_NewCloudResourceManager _ _) ?w0 = (Err _, _) |- _ =>
           destruct (Hcrm w0) as (? & ? & E'); congruence
       | E : _ (clients_NewStorage _ _) ?w0 = (Err _, _) |- _ =>
           destruct (Hstg w0) as (? & ? & E'); congruence
       end.
  all: do 11 eexists; do 6 (split; [first [reflexivity | eassumption]|]).
  all: match goal with
       | E : _ (cloudfunctions_RevokeExternalGrantsFolders _ _ _ _ _ _) _
             = _ |- _ => rewrite E
       end; split; reflexivity.
Qed.

Lemma RevokeExternalGrantsFolders_success_witness :
  let env := [("folder_ids", "4711,4712"); ("disallowed", "gmail.com")] in
  let ctx := mkContext None in
  let msg := mkMessage "1" "{}" in
  let o := run (fakeClients (Ok (mkLoggerClient 0)))
             (@RevokeExternalGrantsFolders plainQuote env ctx msg) 0 in
  calls_of o =
    [clients_NewLogger ctx authFile;
     entities_NewLogger (mkLoggerClient 0);
     Logger_Info (mkLogger 1) "Initializing external members IAM removal";
     clients_NewCloudResourceManager ctx authFile;
     clients_NewStorage ctx authFile;
     entities_NewResource (mkCloudResourceManager 3) (mkStorage 4);
     cloudfunctions_RevokeExternalGrantsFolders ctx msg (mkResource 5)
       ["4711"; "4712"] ["gmail.com"] (mkLogger 1);
     Logger_Close (mkLogger 1)] /\
  returned o = None.
Proof.
  intros env ctx msg o.
  destruct (@RevokeExternalGrantsFolders_success plainQuote nat
              (fakeClients (Ok (mkLoggerClient 0))) 0 env ctx msg)
    as (lg & l & crm & stg & r & w1 & w2 & w3 & w4 & w5 & w6 &
        H0 & H1 & H2 & H3 & H4 & H5 & Hc & Hr).
  - intros w0. now exists (mkLoggerClient 0), (S w0).
  - intros w0. now exists (mkCloudResourceManager w0), (S w0).
  - intros w0. now exists (mkStorage w0), (S w0).
  - discriminate.
  - discriminate.
  - split; reflexivity.
Defined.

(** X13: [RevokeExternalGrantsFolders] ends in one of six ways: it hands
    over to [cloudfunctions], or it returns the error of a missing variable,
    or the error of the logger, resource-manager or storage client that could
    not be created; a client after the failing one is not created.  It never
    returns nil without the handover. *)
Theorem RevokeExternalGrantsFolders_outcome `{FmtEnv} {W : Type}
    (h : handler EntryCall EntryResp W) (w : W)
    (env : Environ) (ctx : Context) (m : Message) :
  let o := run h (RevokeExternalGrantsFolders env ctx m) w in
  (exists r ids d l,
     In (cloudfunctions_RevokeExternalGrantsFolders ctx m r ids d l)
        (calls_of o)) \/
  (returned o =
     Some (errorString "folder_ids environment variable not found") /\
   filter isResourceCall (calls_of o) = []) \/
  (returned o =
     Some (errorString "disallowed environment variable not found") /\
   filter isResourceCall (calls_of o) = []) \/
  (exists err,
     returned o =
       Some (Errorf_q "failed to initialize logger client: " err) /\
     calls_of o = [clients_NewLogger ctx authFile]) \/
  (exists err,
     returned o =
       Some (Errorf_q
               "failed to initialize cloud resource manager client: " err) /\
     filter isResourceCall (calls_of o) =
       [clients_NewCloudResourceManager ctx authFile]) \/
  (exists err,
     returned o =
       Some (Errorf_q "failed to initialize storage client: " err) /\
     filter isResourceCall (calls_of o) =
       [clients_NewCloudResourceManager ctx authFile;
        clients_NewStorage ctx authFile]).
Proof.
  cbv zeta. unfold RevokeExternalGrantsFolders.
  explore h.
  all: first
    [ left; do 4 eexists; do 6 right; left; reflexivity
    | right; left; split; reflexivity
    | right; right; left; split; reflexivity
    | right; right; right; left; eexists; split; reflexivity
    | right; right; right; right; left; eexists; split; reflexivity
    | right; right; right; right; right; eexists; split; reflexivity ].
Qed.

(** X14: of the environment, [RevokeExternalGrantsFolders] reads the two
    variables [folder_ids] and [disallowed] only: in two environments that
    agree on them it is the same program. *)
Theorem RevokeExternalGrantsFolders_reads_two_variables `{FmtEnv}
    (env env' : Environ) (ctx : Context) (m : Message) :
  Getenv env "folder_ids" = Getenv env' "folder_ids" ->
  Getenv env "disallowed" = Getenv env' "disallowed" ->
  RevokeExternalGrantsFolders env ctx m =
  RevokeExternalGrantsFolders env' ctx m.
Proof.
  intros Hf Hd. unfold RevokeExternalGrantsFolders. now rewrite Hf, Hd.
Qed.

Lemma RevokeExternalGrantsFolders_reads_two_variables_witness :
  @RevokeExternalGrantsFolders plainQuote
    [("folder_ids", "4711"); ("disallowed", "gmail.com")]
    (mkContext None) (mkMessage "1" "{}") =
  @RevokeExternalGrantsFolders plainQuote
    [("HOME", "/root"); ("disallowed", "gmail.com"); ("folder_ids", "4711");
     ("folder_ids", "shadowed")]
    (mkContext None) (mkMessage "1" "{}").
Proof.
  apply (@RevokeExternalGrantsFolders_reads_two_variables plainQuote);
    reflexivity.
Defined.

(** ** [CloseBucket] *)

(** X15: without [folder_ids], and with a logger, [CloseBucket] creates no
    client and hands nothing over: it makes the logger, writes its line,
    closes the logger and returns the error about the variable. *)
Theorem CloseBucket_missing_folder_ids `{FmtEnv} {W : Type}
    (h : handler FunctionCall FunctionResp W) (w : W)
    (env : Environ) (ctx : Context) (m : Message)
    (lg : LoggerClient) (w1 : W) :
  Getenv env "folder_ids" = "" ->
  h (shared (clients_NewLogger ctx authFile)) w = (Ok lg, w1) ->
  returned (run h (CloseBucket env ctx m) w) =
    Some (errorString "folder_ids environment variable not found") /\
  calls_of (run h (CloseBucket env ctx m) w) =
    [shared (clients_NewLogger ctx authFile);
     shared (entities_NewLogger lg);
     shared (Logger_Info (fst (h (shared (entities_NewLogger lg)) w1))
               "Initializing bucket public users removal");
     shared (Logger_Close (fst (h (shared (entities_NewLogger lg)) w1)))].
Proof.
  intros Hf H0. unfold CloseBucket. rewrite Hf. simpl. rewrite H0.
  explore h; split; reflexivity.
Qed.

Lemma CloseBucket_missing_folder_ids_witness :
  let env := [("disallowed", "gmail.com")] in
  let o := run (fakeFunctions None)
             (@CloseBucket plainQuote env (mkContext None)
                (mkMessage "1" "{}")) 0 in
  Getenv env "folder_ids" = "" /\
  returned o = Some (errorString "folder_ids environment variable not found")
  /\ filter isServiceCall (calls_of o) = [].
Proof.
  intros env o. split; [reflexivity|].
  destruct (@CloseBucket_missing_folder_ids plainQuote nat
              (fakeFunctions None) 0 env (mkContext None)
              (mkMessage "1" "{}") (mkLoggerClient 0) 1 eq_refl eq_refl)
    as [Hr Hc].
  split; [exact Hr|]. unfold o. rewrite Hc. reflexivity.
Defined.

(** X16: [CloseBucket] hands over to [cloudfunctions] only with
    [folder_ids] set, with its own context and message, and with a
    configuration whose folder identifiers are the comma-separated fields of
    the variable.  A run with a handover makes exactly eight calls, the
    handover once and as the last call before the deferred close, with the
    resource and the logger the collaborators answered; what
    [cloudfunctions] answers to that one call is what it returns. *)
Theorem CloseBucket_handover `{FmtEnv} {W : Type}
    (h : handler FunctionCall FunctionResp W) (w : W)
    (env : Environ) (ctx : Context) (m : Message)
    (ctx' : Context) (m' : Message) (r : Resource) (l : Logger)
    (conf : CloudfunctionsConfiguration) :
  In (cloudfunctions_CloseBucket ctx' m' r l conf)
     (calls_of (run h (CloseBucket env ctx m) w)) ->
  ctx' = ctx /\ m' = m /\
  Getenv env "folder_ids" <> "" /\
  FoldersIDs conf = strings.SplitByte (Getenv env "folder_ids") "," /\
  String.concat "," (FoldersIDs conf) = Getenv env "folder_ids" /\
  (forall f, In f (FoldersIDs conf) -> ~ occurs_in "," f) /\
  exists lg crm stg w1 w2 w3 w4 w5 w6,
    h (shared (clients_NewLogger ctx authFile)) w = (Ok lg, w1) /\
    h (shared (entities_NewLogger lg)) w1 = (l, w2) /\
    h (shared (Logger_Info l "Initializing bucket public users removal")) w2
      = (tt, w3) /\
    h (shared (clients_NewCloudResourceManager ctx authFile)) w3
      = (Ok crm, w4) /\
    h (shared (clients_NewStorage ctx authFile)) w4 = (Ok stg, w5) /\
    h (shared (entities_NewResource crm stg)) w5 = (r, w6) /\
    calls_of (run h (CloseBucket env ctx m) w) =
      [shared (clients_NewLogger ctx authFile);
       shared (entities_NewLogger lg);
       shared (Logger_Info l "Initializing bucket public users removal");
       shared (clients_NewCloudResourceManager ctx authFile);
       shared (clients_NewStorage ctx authFile);
       shared (entities_NewResource crm stg);
       cloudfunctions_CloseBucket ctx m r l conf;
       shared (Logger_Close l)] /\
    returned (run h (CloseBucket env ctx m) w) =
      fst (h (cloudfunctions_CloseBucket ctx m r l conf) w6).
Proof.
  unfold CloseBucket.
  explore h; intros Hin; not_among Hin.
  all: injection Hin as <- <- <- <- <-.
  all: apply String.eqb_neq in V.
  all: do 4 (split; [first [reflexivity | assumption]|]).
  all: split; [apply split_facts.concat_SplitByte|].
  all: split; [apply split_facts.SplitByte_no_sep|].
  all: do 9 eexists; do 6 (split; [first [reflexivity | eassumption]|]).
  all: match goal with
       | E : _ (cloudfunctions_CloseBucket _ _ _ _ _) _ = _ |- _ =>
           rewrite E
       end; split; reflexivity.
Qed.

Lemma CloseBucket_handover_witness :
  let env := [("folder_ids", "4711,4712")] in
  let ctx := mkContext None in
  let msg := mkMessage "1" "{}" in
  let o := run (fakeFunctions None) (@CloseBucket plainQuote env ctx msg) 0 in
  In (cloudfunctions_CloseBucket ctx msg (mkResource 5) (mkLogger 1)
        (mkCloudfunctionsConfiguration ["4711"; "4712"])) (calls_of o) /\
  returned o = None.
Proof.
  intros env ctx msg o.
  assert (Hin : In (cloudfunctions_CloseBucket ctx msg (mkResource 5)
                      (mkLogger 1)
                      (mkCloudfunctionsConfiguration ["4711"; "4712"]))
                   (calls_of o))
    by (do 6 right; left; reflexivity).
  split; [exact Hin|].
  destruct (@CloseBucket_handover plainQuote nat (fakeFunctions None) 0 env
              ctx msg _ _ _ _ _ Hin)
    as (_ & _ & _ & _ & _ & _ &
        lg & crm & stg & w1 & w2 & w3 & w4 & w5 & w6 &
        _ & _ & _ & _ & _ & _ & _ & Hr).
  unfold o. rewrite Hr. reflexivity.
Defined.

(** X17: of the environment, [CloseBucket] reads [folder_ids] only; in
    particular [disallowed] has no effect on it. *)
Theorem CloseBucket_reads_folder_ids_only `{FmtEnv}
    (env env' : Environ) (ctx : Context) (m : Message) :
  Getenv env "folder_ids" = Getenv env' "folder_ids" ->
  CloseBucket env ctx m = CloseBucket env' ctx m.
Proof.
  intros Hf. unfold CloseBucket. now rewrite Hf.
Qed.

Lemma CloseBucket_reads_folder_ids_only_witness :
  @CloseBucket plainQuote [("folder_ids", "4711")]
    (mkContext None) (mkMessage "1" "{}") =
  @CloseBucket plainQuote [("disallowed", "gmail.com"); ("folder_ids", "4711")]
    (mkContext None) (mkMessage "1" "{}").
Proof.
  apply (@CloseBucket_reads_folder_ids_only plainQuote). reflexivity.
Defined.

(** X18: once its logger exists, [CloseBucket] closes it on every path,
    exactly once, and the close is its last call. *)
Theorem CloseBucket_closes_logger `{FmtEnv} {W : Type}
    (h : handler FunctionCall FunctionResp W) (w : W)
    (env : Environ) (ctx : Context) (m : Message)
    (lg : LoggerClient) (w1 : W) :
  h (shared (clients_NewLogger ctx authFile)) w = (Ok lg, w1) ->
  filter isFunctionLoggerClose (calls_of (run h (CloseBucket env ctx m) w)) =
    [shared (Logger_Close (fst (h (shared (entities_NewLogger lg)) w1)))] /\
  last (calls_of (run h (CloseBucket env ctx m) w))
       (shared (clients_NewLogger ctx authFile)) =
    shared (Logger_Close (fst (h (shared (entities_NewLogger lg)) w1))).
Proof.
  intros H0. unfold CloseBucket. simpl. rewrite H0.
  explore h; split; reflexivity.
Qed.

Lemma CloseBucket_closes_logger_witness :
  let o := run (fakeFunctions None)
             (@CloseBucket plainQuote [("folder_ids", "4711")]
                (mkContext None) (mkMessage "1" "{}")) 0 in
  filter isFunctionLoggerClose (calls_of o)
    = [shared (Logger_Close (mkLogger 1))].
Proof.
  intros o.
  exact (proj1 (@CloseBucket_closes_logger plainQuote nat (fakeFunctions None)
                  0 [("folder_ids", "4711")] (mkContext None)
                  (mkMessage "1" "{}") (mkLoggerClient 0) 1 eq_refl)).
Defined.

(** ** [SnapshotDisk] *)




(** X21: once its logger exists, [SnapshotDisk] closes it on every path,
    exactly once, and the close is its last call. *)
Theorem SnapshotDisk_closes_logger `{FmtEnv} {W : Type}
    (h : handler FunctionCall FunctionResp W) (w : W)
    (ctx : Context) (m : Message) (lg : LoggerClient) (w1 : W) :
  h (shared (clients_NewLogger ctx authFile)) w = (Ok lg, w1) ->
  filter isFunctionLoggerClose (calls_of (run h (SnapshotDisk ctx m) w)) =
    [shared (Logger_Close (fst (h (shared (entities_NewLogger lg)) w1)))] /\
  last (calls_of (run h (SnapshotDisk ctx m) w))
       (shared (clients_NewLogger ctx authFile)) =
    shared (Logger_Close (fst (h (shared (entities_NewLogger lg)) w1))).
Proof.
  intros H0. unfold SnapshotDisk. simpl. rewrite H0.
  explore h; split; reflexivity.
Qed.

Lemma SnapshotDisk_closes_logger_witness :
  let o := run (fakeFunctions None)
             (@SnapshotDisk plainQuote (mkContext None) (mkMessage "1" "{}"))
             0 in
  last (calls_of o) (shared (clients_NewLogger (mkContext None) authFile))
    = shared (Logger_Close (mkLogger 1)).
Proof.
  intros o.
  exact (proj2 (@SnapshotDisk_closes_logger plainQuote nat (fakeFunctions None)
                  0 (mkContext None) (mkMessage "1" "{}")
                  (mkLoggerClient 0) 1 eq_refl)).
Defined.

(** X22: [CloseBucket] ends in one of five ways: it hands over to
    [cloudfunctions.CloseBucket], or it returns the error about
    [folder_ids], or the error of the logger, resource-manager or storage
    client that could not be created.  It never returns nil without the
    handover. *)
Theorem CloseBucket_outcome `{FmtEnv} {W : Type}
    (h : handler FunctionCall FunctionResp W) (w : W)
    (env : Environ) (ctx : Context) (m : Message) :
  let o := run h (CloseBucket env ctx m) w in
  (exists r l conf,
     In (cloudfunctions_CloseBucket ctx m r l conf) (calls_of o)) \/
  (returned o =
     Some (errorString "folder_ids environment variable not found") /\
   filter isServiceCall (calls_of o) = []) \/
  (exists err,
     returned o =
       Some (Errorf_q "failed to initialize logger client: " err) /\
     calls_of o = [shared (clients_NewLogger ctx authFile)]) \/
  (exists err,
     returned o =
       Some (Errorf_q
               "failed to initialize cloud resource manager client: " err) /\
     filter isServiceCall (calls_of o) =
       [shared (clients_NewCloudResourceManager ctx authFile)]) \/
  (exists err,
     returned o =
       Some (Errorf_q "failed to initialize storage client: " err) /\
     filter isServiceCall (calls_of o) =
       [shared (clients_NewCloudResourceManager ctx authFile);
        shared (clients_NewStorage ctx authFile)]).
Proof.
  cbv zeta. unfold CloseBucket.
  explore h.
  all: first
    [ left; do 3 eexists; do 6 right; left; reflexivity
    | right; left; split; reflexivity
    | right; right; left; eexists; split; reflexivity
    | right; right; right; left; eexists; split; reflexivity
    | right; right; right; right; eexists; split; reflexivity ].
Qed.
